(** * DIYA brand studio: a shallow embedding of the client and of the
      documented extraction pipeline

    The development follows the JavaScript sources of the repository:
    - [services/api.js]             (analyzeBrand, generateCalendar),
    - [context/BrandContext.jsx]    (the BrandProvider state and its
                                     analyzeBrand action),
    - [components/BrandPersona.jsx] (displayColors, isLightColor).
    The Python backend is documented in [docs/brand-extraction] but its
    modules are not part of this tree; the extractor and the routes are
    modelled from that documentation, and every such definition says so.

    JavaScript values are a tagged union, property reads are partial
    (reading a property of null or undefined throws a TypeError), async
    functions are computations in a state-and-exception monad whose state
    holds the outside world and the log of the requests sent. *)

From Stdlib Require Import ZArith QArith String Ascii List Bool Lia DecimalString.
Import ListNotations.
Open Scope string_scope.
Set Warnings "-register-all".

(* ================================================================== *)
(** ** JavaScript values *)
(* ================================================================== *)

Module Js.

(** The values that circulate between the backend responses and the
    React components.  Numbers are integer valued: the code under study
    only tests them for truthiness and prints the HTTP status. *)
Inductive JsVal : Type :=
| JUndefined
| JNull
| JBool (b : bool)
| JNum (z : Z)
| JStr (s : string)
| JArr (items : list JsVal)
| JObj (fields : list (string * JsVal)).

(** An [Error] object: its constructor name and its [message]. *)
Record Error : Type := mkError { err_name : string; err_message : string }.

(** The completion of a call: a value, or a thrown error (for an async
    function: a fulfilled or a rejected promise). *)
Inductive Outcome (A : Type) : Type :=
| Return (a : A)
| Throw (e : Error).
Arguments Return {A} a.
Arguments Throw {A} e.

Definition is_throw {A} (o : Outcome A) : bool :=
  match o with Throw _ => true | Return _ => false end.

(** ToBoolean. *)
Definition truthy (v : JsVal) : bool :=
  match v with
  | JUndefined | JNull => false
  | JBool b => b
  | JNum z => negb (z =? 0)%Z
  | JStr s => negb (s =? "")
  | JArr _ | JObj _ => true
  end.

(** [a || b]. *)
Definition js_or (a b : JsVal) : JsVal := if truthy a then a else b.

Fixpoint assoc (k : string) (fs : list (string * JsVal)) : JsVal :=
  match fs with
  | [] => JUndefined
  | (k', v) :: rest => if k' =? k then v else assoc k rest
  end.

Definition string_of_Z (z : Z) : string := NilZero.string_of_int (Z.to_int z).

(** [v.k]: a TypeError on null and undefined, the field of an object, the
    [length] of a string or of an array, undefined otherwise (the code
    reads no other built-in property through this function). *)
Definition get_prop (v : JsVal) (k : string) : Outcome JsVal :=
  match v with
  | JUndefined =>
      Throw (mkError "TypeError"
               ("Cannot read properties of undefined (reading '" ++ k ++ "')"))
  | JNull =>
      Throw (mkError "TypeError"
               ("Cannot read properties of null (reading '" ++ k ++ "')"))
  | JObj fs => Return (assoc k fs)
  | JStr s => Return (if k =? "length" then JNum (Z.of_nat (String.length s))
                      else JUndefined)
  | JArr l => Return (if k =? "length" then JNum (Z.of_nat (List.length l))
                      else JUndefined)
  | JBool _ | JNum _ => Return JUndefined
  end.

(** [v?.k]: optional chaining never throws. *)
Definition get_prop_opt (v : JsVal) (k : string) : JsVal :=
  match get_prop v k with
  | Return x => x
  | Throw _ => JUndefined
  end.

(** ToString, as [new Error(x)] and template literals apply it. *)
Fixpoint ToString (v : JsVal) : string :=
  match v with
  | JUndefined => "undefined"
  | JNull => "null"
  | JBool true => "true"
  | JBool false => "false"
  | JNum z => string_of_Z z
  | JStr s => s
  | JObj _ => "[object Object]"
  | JArr l =>
      (fix join (xs : list JsVal) : string :=
         match xs with
         | [] => ""
         | x :: rest =>
             let sx := match x with
                       | JUndefined | JNull => ""
                       | _ => ToString x
                       end in
             match rest with
             | [] => sx
             | _ :: _ => sx ++ "," ++ join rest
             end
         end) l
  end.

(** [new Error(x)]: an absent message is the empty string. *)
Definition new_Error (x : JsVal) : Error :=
  match x with
  | JUndefined => mkError "Error" ""
  | _ => mkError "Error" (ToString x)
  end.

(** *** Computations with state and exceptions *)

Definition Eff (S A : Type) : Type := S -> Outcome A * S.

Definition ret {S A} (a : A) : Eff S A := fun s => (Return a, s).

Definition throw {S A} (e : Error) : Eff S A := fun s => (Throw e, s).

Definition bind {S A B} (m : Eff S A) (k : A -> Eff S B) : Eff S B :=
  fun s =>
    match m s with
    | (Return a, s') => k a s'
    | (Throw e, s') => (Throw e, s')
    end.

(** [try { m } catch (err) { h err }], and a promise's [.catch(h)]. *)
Definition try_catch {S A} (m : Eff S A) (h : Error -> Eff S A) : Eff S A :=
  fun s =>
    match m s with
    | (Return a, s') => (Return a, s')
    | (Throw e, s') => h e s'
    end.

(** [try { m } finally { f }] where [f] completes normally: the outcome of
    [m] is kept, an error thrown by [f] replaces it. *)
Definition try_finally {S A} (m : Eff S A) (f : Eff S unit) : Eff S A :=
  fun s =>
    match m s with
    | (o, s') =>
        match f s' with
        | (Return _, s'') => (o, s'')
        | (Throw e, s'') => (Throw e, s'')
        end
    end.

(** A pure partial operation used inside a computation. *)
Definition lift_outcome {S A} (o : Outcome A) : Eff S A := fun s => (o, s).

Definition modify {S} (f : S -> S) : Eff S unit := fun s => (Return tt, f s).

End Js.

Import Js.

Declare Scope eff_scope.
Delimit Scope eff_scope with eff.
Notation "x <- m ;; k" := (bind m (fun x => k))
  (at level 61, m at next level, right associativity) : eff_scope.
Notation "m ;;; k" := (bind m (fun _ => k))
  (at level 61, right associativity) : eff_scope.
Infix "|||" := js_or (at level 50, left associativity).

(* ================================================================== *)
(** ** services/api.js *)
(* ================================================================== *)

Module Api.

(** What [fetch] receives. *)
Record Request : Type := mkRequest {
  req_url : string;
  req_method : string;
  req_headers : list (string * string);
  req_body : string
}.

(** What [fetch] resolves to: the status line and the outcome of
    [response.json()] (a SyntaxError when the body is not JSON). *)
Record Response : Type := mkResponse {
  status : Z;
  json : Outcome JsVal
}.

(** [response.ok]: the status is in the range 200-299. *)
Definition ok (r : Response) : bool :=
  ((200 <=? status r) && (status r <=? 299))%Z.

Section WithNetwork.

(** The outside world (the servers behind the network), and the two
    platform functions the module calls.  [fetch] either rejects (the
    network is down) or resolves to a response, and may change the
    world. *)
Variable World : Type.
Variable fetch : Request -> World -> Outcome Response * World.
Variable JSON_stringify : JsVal -> string.

(** The state threaded through the async functions: the world, and the
    requests sent so far, oldest first. *)
Record Net : Type := mkNet { world : World; sent : list Request }.

Definition js_fetch (rq : Request) : Eff Net Response :=
  fun n =>
    let (o, w') := fetch rq (world n) in
    (o, {| world := w'; sent := (sent n ++ [rq])%list |}).

Definition API_BASE_URL : string := "http://localhost:5001".

Definition json_post (path : string) (payload : JsVal) : Request :=
  {| req_url := API_BASE_URL ++ path;
     req_method := "POST";
     req_headers := [("Content-Type", "application/json")];
     req_body := JSON_stringify payload |}.

Definition analyze_payload (url : JsVal) : JsVal :=
  JObj [("source", JStr "url"); ("url", url)].

Definition analyze_request (url : JsVal) : Request :=
  json_post "/brand/analyze" (analyze_payload url).

Local Open Scope eff_scope.

(** [export async function analyzeBrand(url)]. *)
Definition analyzeBrand (url : JsVal) : Eff Net JsVal :=
  response <- js_fetch (analyze_request url) ;;
  if negb (ok response) then
    errorData <- try_catch (lift_outcome (json response))
                           (fun _ => ret (JObj [])) ;;
    e <- lift_outcome (get_prop errorData "error") ;;
    throw (new_Error
             (e ||| JStr ("API request failed with status "
                          ++ string_of_Z (status response))))
  else
    data <- lift_outcome (json response) ;;
    s <- lift_outcome (get_prop data "success") ;;
    if negb (truthy s) then
      e <- lift_outcome (get_prop data "error") ;;
      throw (new_Error (e ||| JStr "Brand analysis failed"))
    else
      lift_outcome (get_prop data "brand_data").

(** The default parameter [tone = 'professional']. *)
Definition default_tone (tone : JsVal) : JsVal :=
  match tone with
  | JUndefined => JStr "professional"
  | _ => tone
  end.

Definition calendar_payload (brandData tone : JsVal) : JsVal :=
  JObj [("brand_data", brandData); ("tone", default_tone tone)].

Definition calendar_request (brandData tone : JsVal) : Request :=
  json_post "/calendar/generate" (calendar_payload brandData tone).

(** [export async function generateCalendar(brandData, tone)]. *)
Definition generateCalendar (brandData tone : JsVal) : Eff Net JsVal :=
  response <- js_fetch (calendar_request brandData tone) ;;
  if negb (ok response) then
    errorData <- try_catch (lift_outcome (json response))
                           (fun _ => ret (JObj [])) ;;
    e <- lift_outcome (get_prop errorData "error") ;;
    throw (new_Error
             (e ||| JStr ("API request failed with status "
                          ++ string_of_Z (status response))))
  else
    data <- lift_outcome (json response) ;;
    s <- lift_outcome (get_prop data "success") ;;
    if negb (truthy s) then
      e <- lift_outcome (get_prop data "error") ;;
      throw (new_Error (e ||| JStr "Calendar generation failed"))
    else
      lift_outcome (get_prop data "calendar").

End WithNetwork.

Arguments mkNet {World} _ _.
Arguments world {World} _.
Arguments sent {World} _.

End Api.

(* ================================================================== *)
(** ** context/BrandContext.jsx *)
(* ================================================================== *)

Module BrandContext.

(** The [useState] cells of [BrandProvider]. *)
Record State : Type := mkState {
  url : JsVal;
  brandData : JsVal;
  contentSettings : JsVal;
  generatedPosts : JsVal;
  loading : bool;
  error : JsVal
}.

Definition default_settings : JsVal :=
  JObj [("platforms", JArr []); ("frequency", JStr "3/week")].

(** The initial values passed to [useState]. *)
Definition initial : State :=
  {| url := JStr ""; brandData := JNull;
     contentSettings := default_settings; generatedPosts := JArr [];
     loading := false; error := JNull |}.

Section WithNetwork.

Variable World : Type.
Variable fetch : Api.Request -> World -> Outcome Api.Response * World.
Variable JSON_stringify : JsVal -> string.

(** The provider's state together with the network the API talks to. *)
Record Ctx : Type := mkCtx { st : State; net : Api.Net World }.

Definition on_state (f : State -> State) : Eff Ctx unit :=
  modify (fun c => {| st := f (st c); net := net c |}).

Definition setUrl (v : JsVal) : Eff Ctx unit :=
  on_state (fun s => {| url := v; brandData := brandData s;
                        contentSettings := contentSettings s;
                        generatedPosts := generatedPosts s;
                        loading := loading s; error := error s |}).

Definition setBrandData (v : JsVal) : Eff Ctx unit :=
  on_state (fun s => {| url := url s; brandData := v;
                        contentSettings := contentSettings s;
                        generatedPosts := generatedPosts s;
                        loading := loading s; error := error s |}).

Definition setContentSettings (v : JsVal) : Eff Ctx unit :=
  on_state (fun s => {| url := url s; brandData := brandData s;
                        contentSettings := v;
                        generatedPosts := generatedPosts s;
                        loading := loading s; error := error s |}).

Definition setGeneratedPosts (v : JsVal) : Eff Ctx unit :=
  on_state (fun s => {| url := url s; brandData := brandData s;
                        contentSettings := contentSettings s;
                        generatedPosts := v;
                        loading := loading s; error := error s |}).

Definition setLoading (b : bool) : Eff Ctx unit :=
  on_state (fun s => {| url := url s; brandData := brandData s;
                        contentSettings := contentSettings s;
                        generatedPosts := generatedPosts s;
                        loading := b; error := error s |}).

Definition setError (v : JsVal) : Eff Ctx unit :=
  on_state (fun s => {| url := url s; brandData := brandData s;
                        contentSettings := contentSettings s;
                        generatedPosts := generatedPosts s;
                        loading := loading s; error := v |}).

(** Awaiting a function of [services/api.js] from the provider. *)
Definition await_api {A} (m : Eff (Api.Net World) A) : Eff Ctx A :=
  fun c =>
    let (o, n') := m (net c) in
    (o, {| st := st c; net := n' |}).

(** [import { analyzeBrand as analyzeBrandAPI } from '../services/api'] *)
Definition analyzeBrandAPI : JsVal -> Eff (Api.Net World) JsVal :=
  Api.analyzeBrand World fetch JSON_stringify.

Local Open Scope eff_scope.

(** [const analyzeBrand = useCallback(async (brandUrl) => ...)]. *)
Definition analyzeBrand (brandUrl : JsVal) : Eff Ctx JsVal :=
  setLoading true ;;;
  setError JNull ;;;
  try_finally
    (try_catch
       (data <- await_api (analyzeBrandAPI brandUrl) ;;
        setBrandData data ;;;
        ret data)
       (fun err =>
          setError (JStr (err_message err) ||| JStr "Failed to analyze brand") ;;;
          throw err))
    (setLoading false).

(** [const clearBrandData = useCallback(() => ...)]. *)
Definition clearBrandData : Eff Ctx unit :=
  setUrl (JStr "") ;;;
  setBrandData JNull ;;;
  setContentSettings default_settings ;;;
  setGeneratedPosts (JArr []) ;;;
  setError JNull.

End WithNetwork.

Arguments mkCtx {World} _ _.
Arguments st {World} _.
Arguments net {World} _.

End BrandContext.

(* ================================================================== *)
(** ** components/BrandPersona.jsx *)
(* ================================================================== *)

Module BrandPersona.

(** [Array.isArray(color) ? color[0] : color]. *)
Definition first_component (color : JsVal) : JsVal :=
  match color with
  | JArr items => nth 0 items JUndefined
  | _ => color
  end.

(** [brandData?.colors || []]. *)
Definition colors (brandData : JsVal) : JsVal :=
  get_prop_opt brandData "colors" ||| JArr [].

(** [colors.slice(0, 5).map(...)]: an array is cut and mapped; a string
    has [slice] but its result has no [map]; any other truthy value has
    no [slice]. *)
Definition processedColors (brandData : JsVal) : Outcome (list JsVal) :=
  match colors brandData with
  | JArr items => Return (map first_component (firstn 5 items))
  | JStr _ =>
      Throw (mkError "TypeError" "colors.slice(...).map is not a function")
  | _ => Throw (mkError "TypeError" "colors.slice is not a function")
  end.

Definition fallbackColors : list JsVal :=
  [JStr "#111111"; JStr "#00c237"; JStr "#f9f9f9"].

(** [processedColors.length > 0 ? processedColors : [...]]. *)
Definition displayColors (brandData : JsVal) : Outcome (list JsVal) :=
  match processedColors brandData with
  | Return processed =>
      Return (if (0 <? List.length processed)%nat then processed
              else fallbackColors)
  | Throw e => Throw e
  end.

(** *** isLightColor *)

(** [s.replace('#', '')]: a string pattern replaces its first occurrence. *)
Fixpoint remove_first_hash (s : string) : string :=
  match s with
  | EmptyString => EmptyString
  | String c rest =>
      if (c =? "#")%char then rest else String c (remove_first_hash rest)
  end.

(** [s.substr(start, len)]. *)
Definition substr (start len : nat) (s : string) : string :=
  substring start len s.

(** The white space [parseInt] skips (the one-byte part of it). *)
Definition is_space (c : ascii) : bool :=
  let n := nat_of_ascii c in
  ((n =? 32) || ((9 <=? n) && (n <=? 13)))%nat.

Fixpoint skip_spaces (s : string) : string :=
  match s with
  | String c rest => if is_space c then skip_spaces rest else s
  | EmptyString => EmptyString
  end.

(** The value of a hexadecimal digit. *)
Definition hex_digit (c : ascii) : option Z :=
  let n := nat_of_ascii c in
  if ((48 <=? n) && (n <=? 57))%nat then Some (Z.of_nat (n - 48))
  else if ((97 <=? n) && (n <=? 102))%nat then Some (Z.of_nat (n - 87))
  else if ((65 <=? n) && (n <=? 70))%nat then Some (Z.of_nat (n - 55))
  else None.

(** The longest prefix of hexadecimal digits, read left to right; [None]
    when there is no digit at all. *)
Fixpoint hex_prefix (acc : option Z) (s : string) : option Z :=
  match s with
  | EmptyString => acc
  | String c rest =>
      match hex_digit c with
      | Some d =>
          hex_prefix (Some (16 * match acc with Some a => a | None => 0 end + d)%Z)
                     rest
      | None => acc
      end
  end.

Definition strip_0x (s : string) : string :=
  match s with
  | String "0" (String "x" rest) => rest
  | String "0" (String "X" rest) => rest
  | _ => s
  end.

(** [parseInt(s, 16)]; [None] is NaN. *)
Definition parseInt16 (s : string) : option Z :=
  let s1 := skip_spaces s in
  let (sign, s2) :=
    match s1 with
    | String "-" rest => ((-1)%Z, rest)
    | String "+" rest => (1%Z, rest)
    | _ => (1%Z, s1)
    end in
  match hex_prefix None (strip_0x s2) with
  | Some v => Some (sign * v)%Z
  | None => None
  end.

(** [(r * 299 + g * 587 + b * 114) / 1000].  The operands are integers of
    small magnitude, so the double the code computes compares with 155
    exactly as this rational does. *)
Definition brightness (r g b : Z) : Q := (r * 299 + g * 587 + b * 114) # 1000.

(** [x > 155]. *)
Definition above_155 (x : Q) : bool := negb (Qle_bool x (155 # 1)).

(** [function isLightColor(hex)]. *)
Definition isLightColor (hex : JsVal) : Outcome bool :=
  if negb (truthy hex) then Return true
  else
    match hex with
    | JStr h =>
        let color := remove_first_hash h in
        let r := parseInt16 (substr 0 2 color) in
        let g := parseInt16 (substr 2 2 color) in
        let b := parseInt16 (substr 4 2 color) in
        match r, g, b with
        | Some r, Some g, Some b => Return (above_155 (brightness r g b))
        | _, _, _ => Return false
        end
    | _ => Throw (mkError "TypeError" "hex.replace is not a function")
    end.

End BrandPersona.

(* ================================================================== *)
(** ** The backend, from its documentation *)
(* ================================================================== *)

Module AssetExtractor.

(** Modelled from the spec: [app/services/asset_extractor.py] is not in
    this tree; its stages, their order and their bounds are those of
    [docs/brand-extraction] (the 8-stage pipeline).  These are the eight
    stages. *)
Inductive Stage : Type :=
| BrandFetchEnrichment
| Crawling
| AssetDiscovery
| CssAnalysis
| DomScoring
| TextCondensation
| AISynthesis
| ClusterMerge.

Definition Stage_eqb (a b : Stage) : bool :=
  match a, b with
  | BrandFetchEnrichment, BrandFetchEnrichment
  | Crawling, Crawling
  | AssetDiscovery, AssetDiscovery
  | CssAnalysis, CssAnalysis
  | DomScoring, DomScoring
  | TextCondensation, TextCondensation
  | AISynthesis, AISynthesis
  | ClusterMerge, ClusterMerge => true
  | _, _ => false
  end.

(** Modelled from the spec: what a stage of [asset_extractor.py] (not in
    this tree) does that the outside can observe. *)
Inductive Action : Type :=
| QueryBrandFetch (domain : string)
| HttpGet (url : string)
| Compute
| CallModel (text : string).

Record Event : Type := mkEvent { ev_stage : Stage; ev_action : Action }.

Definition is_model_call (e : Event) : bool :=
  match ev_action e with CallModel _ => true | _ => false end.

Definition in_stage (s : Stage) (e : Event) : bool := Stage_eqb (ev_stage e) s.

(** The stages that work on the website itself. *)
Definition website_stage (s : Stage) : bool :=
  match s with
  | Crawling | AssetDiscovery | CssAnalysis | DomScoring | TextCondensation => true
  | _ => false
  end.

(** Modelled from the spec: the external services (BrandFetch, HTTP,
    Gemini) and the heuristics of [asset_extractor.py], which is not in
    this tree and whose tuning the documentation leaves open. *)
Record Env : Type := mkEnv {
  domain_hint : string -> string;
  brandfetch_api : string -> JsVal;
  http_get : string -> string;
  internal_links : string -> string -> list string;
  discover_assets : JsVal -> list string -> JsVal;
  stylesheet_links : list string -> list string;
  css_assets : list string -> JsVal -> JsVal;
  dom_weights : list string -> JsVal -> JsVal;
  strip_boilerplate : string -> string;
  gemini_flash : string -> JsVal -> JsVal;
  cluster_palette : JsVal -> JsVal;
  merge_official : list string -> JsVal -> JsVal -> JsVal -> JsVal
}.

Definition MAX_INTERNAL_PAGES : nat := 3.
Definition CONDENSED_CHARS : nat := 3500.

Definition Trace : Type := list Event.

Definition emit (s : Stage) (a : Action) : Eff Trace unit :=
  modify (fun tr : Trace => (tr ++ [mkEvent s a])%list).

Section Pipeline.

Variable env : Env.

Local Open Scope eff_scope.

Definition fetch_in (s : Stage) (url : string) : Eff Trace string :=
  emit s (HttpGet url) ;;; ret (http_get env url).

Fixpoint fetch_all (s : Stage) (urls : list string) : Eff Trace (list string) :=
  match urls with
  | [] => ret []
  | u :: rest =>
      page <- fetch_in s u ;;
      pages <- fetch_all s rest ;;
      ret (page :: pages)
  end.

(** Modelled from the spec: stage 1 of [asset_extractor.py], which is not
    in this tree: BrandFetch is queried with the domain hint, before the
    website is scanned. *)
Definition stage1_brandfetch (url : string) : Eff Trace JsVal :=
  let domain := domain_hint env url in
  emit BrandFetchEnrichment (QueryBrandFetch domain) ;;;
  ret (brandfetch_api env domain).

(** Modelled from the spec: stage 2 of [asset_extractor.py], which is not
    in this tree: the homepage, then at most three internal pages chosen
    by keyword. *)
Definition stage2_crawl (url : string) : Eff Trace (list string * list string) :=
  home <- fetch_in Crawling url ;;
  let links := firstn MAX_INTERNAL_PAGES (internal_links env url home) in
  pages <- fetch_all Crawling links ;;
  ret (url :: links, home :: pages).

(** Modelled from the spec: stage 3 of [asset_extractor.py], which is not
    in this tree: logos, colors and fonts found in the pages, seeded with
    the BrandFetch data. *)
Definition stage3_discover (seed : JsVal) (pages : list string) : Eff Trace JsVal :=
  emit AssetDiscovery Compute ;;;
  ret (discover_assets env seed pages).

(** Modelled from the spec: stage 4 of [asset_extractor.py], which is not
    in this tree: the linked stylesheets are fetched and searched. *)
Definition stage4_css (pages : list string) (found : JsVal) : Eff Trace JsVal :=
  sheets <- fetch_all CssAnalysis (stylesheet_links env pages) ;;
  ret (css_assets env sheets found).

(** Modelled from the spec: stage 5 of [asset_extractor.py], which is not
    in this tree: the findings weighted by where they occur in the DOM. *)
Definition stage5_score (pages : list string) (found : JsVal) : Eff Trace JsVal :=
  emit DomScoring Compute ;;;
  ret (dom_weights env pages found).

(** Modelled from the spec: the condensed text of stage 6 of
    [asset_extractor.py], which is not in this tree: boilerplate is
    stripped from every page and the whole is cut to the 3,500 characters
    the documentation gives as its size. *)
Definition condense (pages : list string) : string :=
  substring 0 CONDENSED_CHARS
    (String.concat " " (map (strip_boilerplate env) pages)).

Definition stage6_condense (pages : list string) : Eff Trace string :=
  emit TextCondensation Compute ;;;
  ret (condense pages).

(** Modelled from the spec: stage 7 of [asset_extractor.py], which is not
    in this tree: one JSON-mode call of the model on the condensed text
    and the technical hints. *)
Definition stage7_synthesize (text : string) (hints : JsVal) : Eff Trace JsVal :=
  emit AISynthesis (CallModel text) ;;;
  ret (gemini_flash env text hints).

(** Modelled from the spec: stage 8 of [asset_extractor.py], which is not
    in this tree: the palette is clustered and the findings are merged
    with the BrandFetch data. *)
Definition stage8_merge (analyzed : list string) (official found strategy : JsVal)
  : Eff Trace JsVal :=
  emit ClusterMerge Compute ;;;
  ret (merge_official env analyzed (cluster_palette env found) official strategy).

(** Modelled from the spec: the pipeline of [asset_extractor.py], which is
    not in this tree: the eight stages in the order the documentation
    numbers them. *)
Definition extract (url : string) : Eff Trace JsVal :=
  official <- stage1_brandfetch url ;;
  crawl <- stage2_crawl url ;;
  let pages := snd crawl in
  found <- stage3_discover official pages ;;
  found <- stage4_css pages found ;;
  scored <- stage5_score pages found ;;
  text <- stage6_condense pages ;;
  strategy <- stage7_synthesize text scored ;;
  stage8_merge (fst crawl) official scored strategy.

(** One analysis, from an empty trace. *)
Definition run (url : string) : Outcome JsVal * Trace := extract url [].

End Pipeline.

End AssetExtractor.

Module Backend.

(** Modelled from the spec: [app/routes.py] is not in this tree.  This
    is what a server-side store would hold: the saved records. *)
Definition Database : Type := list JsVal.

Section Routes.

(** The extractor, the body parser of the framework, and what the
    documentation names without describing: the standardization of manual
    data, the calendar generator, and the answer to a request a route
    refuses. *)
Variable env : AssetExtractor.Env.
Variable JSON_parse : string -> Outcome JsVal.
Variable standardize : JsVal -> JsVal.
Variable generate_calendar : JsVal -> JsVal -> JsVal.
Variable refuse : Api.Request -> Api.Response.

Definition reply (body : JsVal) : Api.Response :=
  {| Api.status := 200; Api.json := Return body |}.

(** Modelled from the spec: the [/brand/analyze] route of [routes.py],
    which is not in this tree: [source] is "url" or "manual"; a URL goes
    through the extractor, manual data is standardized, and the answer is
    [{success: true, brand_data}]. *)
Definition brand_analyze (rq : Api.Request) (body : JsVal) : Api.Response :=
  match get_prop_opt body "source" with
  | JStr "url" =>
      match get_prop_opt body "url" with
      | JStr u =>
          match fst (AssetExtractor.run env u) with
          | Return assets =>
              reply (JObj [("success", JBool true); ("brand_data", assets)])
          | Throw _ => refuse rq
          end
      | _ => refuse rq
      end
  | JStr "manual" =>
      reply (JObj [("success", JBool true); ("brand_data", standardize body)])
  | _ => refuse rq
  end.

(** Modelled from the spec: the [/calendar/generate] route of
    [routes.py], which is not in this tree: the calendar is computed from
    the [brand_data] and the [tone] the request carries. *)
Definition calendar_generate (rq : Api.Request) (body : JsVal) : Api.Response :=
  match get_prop_opt body "brand_data" with
  | JUndefined | JNull => refuse rq
  | bd =>
      reply (JObj [("success", JBool true);
                   ("calendar", generate_calendar bd (get_prop_opt body "tone"))])
  end.

(** Modelled from the spec: the request handler of [routes.py], which is
    not in this tree: every route answers from its request alone and
    hands the store back as it received it. *)
Definition handle (rq : Api.Request) (db : Database)
  : Outcome Api.Response * Database :=
  if Api.req_url rq =? Api.API_BASE_URL ++ "/health"
  then (Return (reply (JObj [("status", JStr "ok")])), db)
  else
    match JSON_parse (Api.req_body rq) with
    | Throw _ => (Return (refuse rq), db)
    | Return body =>
        if Api.req_url rq =? Api.API_BASE_URL ++ "/brand/analyze"
        then (Return (brand_analyze rq body), db)
        else if Api.req_url rq =? Api.API_BASE_URL ++ "/calendar/generate"
        then (Return (calendar_generate rq body), db)
        else (Return (refuse rq), db)
    end.

End Routes.

End Backend.

(** ** The client against the backend *)

Module System.

Section Run.

Variable env : AssetExtractor.Env.
Variable JSON_parse : string -> Outcome JsVal.
Variable JSON_stringify : JsVal -> string.
Variable standardize : JsVal -> JsVal.
Variable generate_calendar : JsVal -> JsVal -> JsVal.
Variable refuse : Api.Request -> Api.Response.

(** The network of the client is the documented server: the world
    behind [fetch] is its store. *)
Definition server : Api.Request -> Backend.Database
                    -> Outcome Api.Response * Backend.Database :=
  Backend.handle env JSON_parse standardize generate_calendar refuse.

Definition Ctx : Type := BrandContext.Ctx Backend.Database.

(** What the pages of the application ask for. *)
Inductive Op : Type :=
| Analyze (url : JsVal)
| Calendar (brandData tone : JsVal)
| Clear.

Definition discard {A} (m : Eff Ctx A) (c : Ctx) : Ctx := snd (m c).

Definition step (c : Ctx) (op : Op) : Ctx :=
  match op with
  | Analyze u =>
      discard (BrandContext.analyzeBrand Backend.Database server JSON_stringify u) c
  | Calendar bd tone =>
      discard (BrandContext.await_api Backend.Database
                 (Api.generateCalendar Backend.Database server JSON_stringify bd tone)) c
  | Clear => discard (BrandContext.clearBrandData Backend.Database) c
  end.

Definition steps (c : Ctx) (ops : list Op) : Ctx := fold_left step ops c.

Definition database (c : Ctx) : Backend.Database :=
  Api.world (BrandContext.net c).

End Run.

End System.

(* ================================================================== *)
(** ** Vocabulary of the statements *)
(* ================================================================== *)

Module BrandPersonaSpec.

Import BrandPersona.

(** The hexadecimal digits, written out. *)
Definition hex_chars : list ascii :=
  list_ascii_of_string "0123456789abcdefABCDEF".

(** [c] is one of the twenty-two hexadecimal digits. *)
Definition is_hex (c : ascii) : bool := existsb (Ascii.eqb c) hex_chars.

(** The value a hexadecimal digit stands for, by the table of the
    notation: 0 to 9, then a (or A) for ten up to f (or F) for fifteen. *)
Definition digit_value (c : ascii) : Z :=
  match c with
  | "0" => 0 | "1" => 1 | "2" => 2 | "3" => 3 | "4" => 4
  | "5" => 5 | "6" => 6 | "7" => 7 | "8" => 8 | "9" => 9
  | "a" | "A" => 10
  | "b" | "B" => 11
  | "c" | "C" => 12
  | "d" | "D" => 13
  | "e" | "E" => 14
  | "f" | "F" => 15
  | _ => 0
  end%char%Z.

(** The byte written by two hexadecimal digits. *)
Definition hex_byte (hi lo : ascii) : Z := (16 * digit_value hi + digit_value lo)%Z.

(** The string [#RRGGBB] made of six characters. *)
Definition rrggbb (r1 r2 g1 g2 b1 b2 : ascii) : string :=
  String "#" (String r1 (String r2 (String g1 (String g2
    (String b1 (String b2 EmptyString)))))).

(** What the palette shows for one entry of the colors: the first
    component of a [hex, name] tuple, the entry itself otherwise. *)
Definition shown_for (entry hex : JsVal) : Prop :=
  match entry with
  | JArr (first :: _) => hex = first
  | JArr [] => hex = JUndefined
  | _ => hex = entry
  end.

End BrandPersonaSpec.

Module ApiSpec.

Import Api.

(** [v == null]. *)
Definition nullish (v : JsVal) : bool :=
  match v with JUndefined | JNull => true | _ => false end.

(** The error message a response carries: the string under [error] in
    its JSON body, when there is one. *)
Definition response_error_message (r : Response) : option string :=
  match json r with
  | Return (JObj fs) =>
      match assoc "error" fs with
      | JStr m => Some m
      | _ => None
      end
  | _ => None
  end.

(** The call throws an Error whose message is the one of the response. *)
Definition throws_response_error (r : Response) (o : Outcome JsVal) : Prop :=
  exists m, response_error_message r = Some m /\ o = Throw (mkError "Error" m).

(** The parsed body has a [success] field and it is [false]. *)
Definition success_is_false (r : Response) : Prop :=
  exists d, json r = Return d /\ get_prop d "success" = Return (JBool false).

(** The message of a failed request that names no error of its own. *)
Definition status_message (r : Response) : JsVal :=
  JStr ("API request failed with status " ++ string_of_Z (status r)).

End ApiSpec.

(** Sample surroundings on which the statements are exercised. *)
Module Sample.

Import Api.

(** A network whose server answers every request with [r]. *)
Definition answering (r : Response) : Request -> unit -> Outcome Response * unit :=
  fun _ w => (Return r, w).

(** A stand-in for the platform's serializer. *)
Definition stringify : JsVal -> string := ToString.

Definition idle : Net unit := mkNet tt [].

Definition acme : JsVal :=
  JObj [("name", JStr "Acme"); ("colors", JArr [JStr "#ff0000"])].

Definition analysis_ok : Response :=
  {| status := 200;
     json := Return (JObj [("success", JBool true); ("brand_data", acme)]) |}.

Definition calendar_ok : Response :=
  {| status := 200;
     json := Return (JObj [("success", JBool true);
                           ("calendar", JArr [JStr "Monday"])]) |}.

(** A gateway error: status 502 and a body that is not JSON. *)
Definition bad_gateway : Response :=
  {| status := 502;
     json := Throw (mkError "SyntaxError" "Unexpected token < in JSON") |}.

(** A site with five internal links and one stylesheet. *)
Definition env : AssetExtractor.Env :=
  {| AssetExtractor.domain_hint := fun u => u;
     AssetExtractor.brandfetch_api := fun _ => JObj [("colors", JArr [JStr "#111111"])];
     AssetExtractor.http_get := fun u => "<html>" ++ u ++ "</html>";
     AssetExtractor.internal_links :=
       fun _ _ => ["/about"; "/services"; "/contact"; "/blog"; "/team"];
     AssetExtractor.discover_assets := fun seed _ => seed;
     AssetExtractor.stylesheet_links := fun _ => ["/site.css"];
     AssetExtractor.css_assets := fun _ found => found;
     AssetExtractor.dom_weights := fun _ found => found;
     AssetExtractor.strip_boilerplate := fun page => page;
     AssetExtractor.gemini_flash := fun _ _ => JObj [("brand_voice", JStr "bold")];
     AssetExtractor.cluster_palette := fun found => found;
     AssetExtractor.merge_official :=
       fun analyzed found official strategy =>
         JObj [("official", official); ("found", found); ("strategy", strategy);
               ("pages_analyzed", JArr (map JStr analyzed))] |}.

End Sample.

Module AssetExtractorSpec.

Import AssetExtractor.

Section Analysis.

Variable env : Env.
Variable url : string.

(** The pages one analysis reads. *)
Definition homepage : string := http_get env url.

Definition links : list string :=
  firstn MAX_INTERNAL_PAGES (internal_links env url homepage).

Definition pages : list string := homepage :: map (http_get env) links.

Definition sheets : list string := stylesheet_links env pages.

Definition gets (s : Stage) (urls : list string) : Trace :=
  map (fun u => mkEvent s (HttpGet u)) urls.

(** The findings on the website, before and after the weighting. *)
Definition official : JsVal := brandfetch_api env (domain_hint env url).

Definition found : JsVal :=
  css_assets env (map (http_get env) sheets) (discover_assets env official pages).

Definition scored : JsVal := dom_weights env pages found.

(** What happens before the model is called, and after. *)
Definition before_model : Trace :=
  ((mkEvent BrandFetchEnrichment (QueryBrandFetch (domain_hint env url))
    :: mkEvent Crawling (HttpGet url) :: gets Crawling links)
   ++ (mkEvent AssetDiscovery Compute :: gets CssAnalysis sheets)
   ++ [mkEvent DomScoring Compute; mkEvent TextCondensation Compute])%list.

Definition model_call : Event := mkEvent AISynthesis (CallModel (condense env pages)).

Definition after_model : Trace := [mkEvent ClusterMerge Compute].

End Analysis.

(** The text handed to the model by an event, if it is a call. *)
Definition prompt_within (bound : nat) (e : Event) : Prop :=
  match ev_action e with
  | CallModel text => (String.length text <= bound)%nat
  | _ => True
  end.

End AssetExtractorSpec.

(* ================================================================== *)
(** ** services/api.js, the other exports *)
(* ================================================================== *)

Module ApiRest.

Import Api.

(** [a === 'literal']. *)
Definition strict_eq_str (a : JsVal) (s : string) : bool :=
  match a with
  | JStr x => x =? s
  | _ => false
  end.

Section WithNetwork.

Variable World : Type.
Variable fetch : Request -> World -> Outcome Response * World.
Variable JSON_stringify : JsVal -> string.

Local Open Scope eff_scope.

Definition content_payload (brandData platforms frequency : JsVal) : JsVal :=
  JObj [("brand_data", brandData); ("platforms", platforms);
        ("frequency", frequency)].

Definition content_request (brandData platforms frequency : JsVal) : Request :=
  json_post JSON_stringify "/calendar/generate"
            (content_payload brandData platforms frequency).

(** [export async function generateContent(brandData, platforms, frequency)]. *)
Definition generateContent (brandData platforms frequency : JsVal)
  : Eff (Net World) JsVal :=
  response <- js_fetch World fetch (content_request brandData platforms frequency) ;;
  if negb (ok response) then
    errorData <- try_catch (lift_outcome (json response))
                           (fun _ => ret (JObj [])) ;;
    e <- lift_outcome (get_prop errorData "error") ;;
    throw (new_Error
             (e ||| JStr ("API request failed with status "
                          ++ string_of_Z (status response))))
  else
    data <- lift_outcome (json response) ;;
    s <- lift_outcome (get_prop data "success") ;;
    if negb (truthy s) then
      e <- lift_outcome (get_prop data "error") ;;
      throw (new_Error (e ||| JStr "Content generation failed"))
    else
      posts <- lift_outcome (get_prop data "posts") ;;
      if truthy posts then ret posts
      else
        calendar <- lift_outcome (get_prop data "calendar") ;;
        ret (calendar ||| JArr []).

(** [fetch(`${API_BASE_URL}/health`)]: no options, hence a GET without
    headers of its own and without a body. *)
Definition health_request : Request :=
  {| req_url := API_BASE_URL ++ "/health";
     req_method := "GET";
     req_headers := [];
     req_body := "" |}.

(** [export async function checkHealth()]. *)
Definition checkHealth : Eff (Net World) bool :=
  try_catch
    (response <- js_fetch World fetch health_request ;;
     data <- lift_outcome (json response) ;;
     s <- lift_outcome (get_prop data "status") ;;
     ret (strict_eq_str s "ok"))
    (fun _ => ret false).

End WithNetwork.

End ApiRest.

(* ================================================================== *)
(** ** context/BrandContext.jsx, the content action *)
(* ================================================================== *)

Module BrandContextRest.

Import BrandContext.

(** The current state, as a computation. *)
Definition current {S : Type} : Eff S S := fun s => (Return s, s).

Section WithNetwork.

Variable World : Type.
Variable fetch : Api.Request -> World -> Outcome Api.Response * World.
Variable JSON_stringify : JsVal -> string.

Local Open Scope eff_scope.

(** [import { generateContent as generateContentAPI } from '../services/api'] *)
Definition generateContentAPI : JsVal -> JsVal -> JsVal -> Eff (Api.Net World) JsVal :=
  ApiRest.generateContent World fetch JSON_stringify.

(** [const generateContent = useCallback(async () => ..., [brandData,
    contentSettings])]: the callback sees the cells of the render that
    created it; the two property reads on [contentSettings] happen inside
    the [try]. *)
Definition generateContent : Eff (Ctx World) JsVal :=
  c <- current ;;
  let brand := brandData (st c) in
  let settings := contentSettings (st c) in
  setLoading World true ;;;
  setError World JNull ;;;
  try_finally
    (try_catch
       (platforms <- lift_outcome (get_prop settings "platforms") ;;
        frequency <- lift_outcome (get_prop settings "frequency") ;;
        posts <- await_api World (generateContentAPI brand platforms frequency) ;;
        setGeneratedPosts World posts ;;;
        ret posts)
       (fun err =>
          setError World
            (JStr (err_message err) ||| JStr "Failed to generate content") ;;;
          throw err))
    (setLoading World false).

(** The cells after [generateContent]: the posts and the error it
    leaves, every other cell as it was, [loading] false. *)
Definition after_content (c : Ctx World) (posts failure : JsVal) : State :=
  {| url := url (st c); brandData := brandData (st c);
     contentSettings := contentSettings (st c);
     generatedPosts := posts;
     loading := false; error := failure |}.

End WithNetwork.

End BrandContextRest.

(* ================================================================== *)
(** ** components/BrandPersona.jsx, the other derived values *)
(* ================================================================== *)

Module BrandPersonaRest.

Import BrandPersona.

Section WithStrings.

(** [String.prototype.slice(start, end)], the platform's: it counts in
    UTF-16 code units, which this development does not look into. *)
Variable String_slice : nat -> nat -> string -> string.

(** [d?.slice(0, 100)]: nothing on null and undefined, the platform's
    slice of a string, the first hundred items of an array, a TypeError
    on any other value. *)
Definition slice_0_100 (d : JsVal) : Outcome JsVal :=
  match d with
  | JUndefined | JNull => Return JUndefined
  | JStr s => Return (JStr (String_slice 0 100 s))
  | JArr items => Return (JArr (firstn 100 items))
  | _ => Throw (mkError "TypeError"
                  "brandData?.description?.slice is not a function")
  end.

(** [brandData?.tagline || brandData?.description?.slice(0, 100)
     || 'Modern & Professional']. *)
Definition tagline (brandData : JsVal) : Outcome JsVal :=
  let t := get_prop_opt brandData "tagline" in
  if truthy t then Return t
  else
    match slice_0_100 (get_prop_opt brandData "description") with
    | Return d => Return (d ||| JStr "Modern & Professional")
    | Throw e => Throw e
    end.

End WithStrings.

(** The text color of a swatch: [isLightColor(color) ? '#333' : '#fff']. *)
Definition swatchTextColor (color : JsVal) : Outcome string :=
  match isLightColor color with
  | Return true => Return "#333"
  | Return false => Return "#fff"
  | Throw e => Throw e
  end.

End BrandPersonaRest.

(* ================================================================== *)
(** ** components/AnalysisLoader.jsx *)
(* ================================================================== *)

Module AnalysisLoader.

(** The cells and the ref of the component, and where it navigated. *)
Record Loader : Type := mkLoader {
  analysisStarted : bool;
  isAnalyzing : bool;
  apiError : JsVal;
  navigated : list string
}.

Definition mounted : Loader :=
  {| analysisStarted := false; isAnalyzing := false; apiError := JNull;
     navigated := [] |}.

Section WithNetwork.

Variable World : Type.
Variable fetch : Api.Request -> World -> Outcome Api.Response * World.
Variable JSON_stringify : JsVal -> string.

(** The component inside its provider. *)
Record Mounted : Type := mkMounted {
  loader : Loader;
  provider : BrandContext.Ctx World
}.

Definition on_loader (f : Loader -> Loader) : Eff Mounted unit :=
  modify (fun m => {| loader := f (loader m); provider := provider m |}).

Definition markStarted : Eff Mounted unit :=
  on_loader (fun l => {| analysisStarted := true; isAnalyzing := isAnalyzing l;
                         apiError := apiError l; navigated := navigated l |}).

Definition setIsAnalyzing (b : bool) : Eff Mounted unit :=
  on_loader (fun l => {| analysisStarted := analysisStarted l; isAnalyzing := b;
                         apiError := apiError l; navigated := navigated l |}).

Definition setApiError (v : JsVal) : Eff Mounted unit :=
  on_loader (fun l => {| analysisStarted := analysisStarted l;
                         isAnalyzing := isAnalyzing l;
                         apiError := v; navigated := navigated l |}).

Definition navigate (path : string) : Eff Mounted unit :=
  on_loader (fun l => {| analysisStarted := analysisStarted l;
                         isAnalyzing := isAnalyzing l; apiError := apiError l;
                         navigated := (navigated l ++ [path])%list |}).

(** A call of the provider's [analyzeBrand] from the component. *)
Definition in_provider {A} (m : Eff (BrandContext.Ctx World) A) : Eff Mounted A :=
  fun s =>
    let (o, c') := m (provider s) in
    (o, {| loader := loader s; provider := c' |}).

Local Open Scope eff_scope.

(** The effect that starts the API call on mount, run until the promise
    of [analyzeBrand(url)] has settled and its [then] or [catch] handler
    has run. *)
Definition startAnalysis : Eff Mounted unit :=
  s <- BrandContextRest.current ;;
  if analysisStarted (loader s) then ret tt
  else
    markStarted ;;;
    let url := BrandContext.url (BrandContext.st (provider s)) in
    if negb (truthy url) then navigate "/brand-intake"
    else
      setIsAnalyzing true ;;;
      try_catch
        (in_provider (BrandContext.analyzeBrand World fetch JSON_stringify url) ;;;
         setIsAnalyzing false)
        (fun err =>
           setApiError (JStr (err_message err) ||| JStr "Failed to analyze brand") ;;;
           setIsAnalyzing false).

End WithNetwork.

Arguments mkMounted {World} _ _.
Arguments loader {World} _.
Arguments provider {World} _.

End AnalysisLoader.

(** ** components/AnalysisLoader.jsx, the earlier version that fetches by
       itself and falls back to a card made from the URL *)

Module AnalysisLoaderLegacy.

Fixpoint drop (n : nat) (s : string) : string :=
  match n, s with
  | O, _ => s
  | S n', String _ rest => drop n' rest
  | S _, EmptyString => EmptyString
  end.

(** [s.replace(/^https?:\/\//, '')]. *)
Definition strip_protocol (s : string) : string :=
  if prefix "http://" s then drop 7 s
  else if prefix "https://" s then drop 8 s
  else s.

(** [s.replace(pat, '')] for a string pattern: its first occurrence,
    scanning from the left, is removed. *)
Fixpoint remove_first (pat s : string) : string :=
  if prefix pat s then drop (String.length pat) s
  else
    match s with
    | EmptyString => EmptyString
    | String c rest => String c (remove_first pat rest)
    end.

(** [s.split('.')[0]]. *)
Fixpoint before_dot (s : string) : string :=
  match s with
  | EmptyString => EmptyString
  | String c rest => if (c =? ".")%char then EmptyString else String c (before_dot rest)
  end.

(** The upper case of a letter from a to z; every other one-byte
    character is left as it is. *)
Definition upper_char (c : ascii) : ascii :=
  let n := nat_of_ascii c in
  if ((97 <=? n) && (n <=? 122))%nat then ascii_of_nat (n - 32) else c.

(** The promise [fetchData]: [fetch(...).then(res => ...).then(data =>
    data).catch(err => ({ success: false, error: err.message }))], from
    the completion of [fetch]. *)
Definition fetchData (fetched : Outcome Api.Response) : JsVal :=
  let failed (err : Error) :=
    JObj [("success", JBool false); ("error", JStr (err_message err))] in
  match fetched with
  | Throw err => failed err
  | Return res =>
      if negb (Api.ok res)
      then failed (new_Error (JStr ("HTTP error! status: "
                                    ++ string_of_Z (Api.status res))))
      else match Api.json res with
           | Return data => data
           | Throw err => failed err
           end
  end.

(** What the handler of [Promise.all] stores in [fetchedDataRef.current]:
    [data && data.success && data.brand_data ? data.brand_data : null]. *)
Definition accepted (data : JsVal) : JsVal :=
  if truthy data
     && truthy (get_prop_opt data "success")
     && truthy (get_prop_opt data "brand_data")
  then get_prop_opt data "brand_data"
  else JNull.

(** When the handler of [Promise.all] runs, relative to the callback the
    timeline calls at its "syncPoint" label. *)
Inductive Settles : Type :=
| BeforeSyncPoint
| AfterSyncPoint.

(** [fetchedDataRef.current] when the timeline reaches the sync point:
    [{}] without a URL (set by the effect itself), what the handler
    stored if it has run, the initial [null] otherwise. *)
Definition ref_at_sync (state : JsVal) (fetched : Outcome Api.Response)
           (settles : Settles) : JsVal :=
  if truthy (get_prop_opt state "url") then
    match settles with
    | BeforeSyncPoint => accepted (fetchData fetched)
    | AfterSyncPoint => JNull
    end
  else JObj [].

(** The sync callback: [if (!fetchedDataRef.current) tl.pause()]. *)
Definition pauses (state : JsVal) (fetched : Outcome Api.Response)
           (settles : Settles) : bool :=
  negb (truthy (ref_at_sync state fetched settles)).

(** The handler of [Promise.all] plays the timeline when it finds it
    paused, which it can only after the sync point; nothing else plays
    it. *)
Definition resumes (state : JsVal) (fetched : Outcome Api.Response)
           (settles : Settles) : bool :=
  truthy (get_prop_opt state "url")
  && match settles with
     | BeforeSyncPoint => false
     | AfterSyncPoint => pauses state fetched settles
     end.

(** [fetchedDataRef.current] when the exit callback runs. *)
Definition fetchedDataRef (state : JsVal) (fetched : Outcome Api.Response) : JsVal :=
  if truthy (get_prop_opt state "url") then accepted (fetchData fetched)
  else JObj [].

Section WithStrings.

(** [String.prototype.toUpperCase], the platform's. *)
Variable String_toUpperCase : string -> string.

Definition name_of_url (url : string) : string :=
  String_toUpperCase (before_dot (remove_first "www." (strip_protocol url))).

(** [state?.url ? state.url.replace(...)...toUpperCase() : 'BRAND']. *)
Definition fallbackName (state : JsVal) : Outcome string :=
  let url := get_prop_opt state "url" in
  if truthy url then
    match url with
    | JStr u => Return (name_of_url u)
    | _ => Throw (mkError "TypeError" "state.url.replace is not a function")
    end
  else Return "BRAND".

Definition fallbackCard (name : string) : JsVal :=
  JObj [("name", JStr name);
        ("description",
         JStr "We couldn't fetch details automatically. Please enter them manually.");
        ("colors", JArr [JStr "#111111"; JStr "#555555"; JStr "#999999"]);
        ("isFallback", JBool true)].

(** [const finalData = fetchedDataRef.current || {...}], the fallback
    name being computed first. *)
Definition finalData (state fetched : JsVal) : Outcome JsVal :=
  match fallbackName state with
  | Return name => Return (fetched ||| fallbackCard name)
  | Throw e => Throw e
  end.

(** The data the exit callback navigates with, once the fetch has
    settled; [None] when the timeline stays paused at the sync point and
    the exit callback never runs. *)
Definition exitData (state : JsVal) (fetched : Outcome Api.Response)
           (settles : Settles) : option (Outcome JsVal) :=
  if pauses state fetched settles && negb (resumes state fetched settles)
  then None
  else Some (finalData state (fetchedDataRef state fetched)).

End WithStrings.

End AnalysisLoaderLegacy.

(* ================================================================== *)
(** ** app/static/js/main.js *)
(* ================================================================== *)

Module MainJs.

Import BrandPersona.

(** The text of the colors field, as JavaScript sees it: a sequence of
    UTF-16 code units. *)
Definition JsString : Type := list N.

Definition COMMA : N := 44.

(** [s.split(',')]. *)
Fixpoint split_commas (s : JsString) : list JsString :=
  match s with
  | [] => [[]]
  | u :: rest =>
      if (u =? COMMA)%N then [] :: split_commas rest
      else match split_commas rest with
           | piece :: pieces => (u :: piece) :: pieces
           | [] => [[u]]
           end
  end.

(** The code units [trim] strips: the white space and the line
    terminators of the language (tab to carriage return, space, no-break
    space, U+1680, U+2000 to U+200A, the line and paragraph separators,
    U+202F, U+205F, U+3000, U+FEFF). *)
Definition is_white_space (u : N) : bool :=
  (((9 <=? u) && (u <=? 13)) || (u =? 32) || (u =? 160) || (u =? 5760)
   || ((8192 <=? u) && (u <=? 8202)) || (u =? 8232) || (u =? 8233)
   || (u =? 8239) || (u =? 8287) || (u =? 12288) || (u =? 65279))%N.

Fixpoint trim_start (s : JsString) : JsString :=
  match s with
  | u :: rest => if is_white_space u then trim_start rest else s
  | [] => []
  end.

Fixpoint trim_end (s : JsString) : JsString :=
  match s with
  | [] => []
  | u :: rest =>
      match trim_end rest with
      | [] => if is_white_space u then [] else [u]
      | kept => u :: kept
      end
  end.

(** [s.trim()]. *)
Definition trim (s : JsString) : JsString := trim_end (trim_start s).

(** [c => c] as a filter on strings: the empty string is dropped. *)
Definition nonempty (s : JsString) : bool :=
  match s with [] => false | _ :: _ => true end.

(** [function parseColors(colorString)]. *)
Definition parseColors (colorString : JsString) : list JsString :=
  firstn 5 (filter nonempty (map trim (split_commas colorString))).

(** The elements the script shows and hides. *)
Inductive El : Type :=
| loadingDiv | brandProfile | brandError
| calendarLoading | calendarError | calendarContainer.

Definition El_eqb (a b : El) : bool :=
  match a, b with
  | loadingDiv, loadingDiv | brandProfile, brandProfile
  | brandError, brandError | calendarLoading, calendarLoading
  | calendarError, calendarError | calendarContainer, calendarContainer => true
  | _, _ => false
  end.

(** [{ ...fields, k: v }]: an existing key keeps its place. *)
Fixpoint obj_set (k : string) (v : JsVal) (fs : list (string * JsVal))
  : list (string * JsVal) :=
  match fs with
  | [] => [(k, v)]
  | (k', v') :: rest =>
      if k' =? k then (k, v) :: rest else (k', v') :: obj_set k v rest
  end.

(** [{ source, ...data }]. *)
Definition spread_after (base data : list (string * JsVal)) : list (string * JsVal) :=
  fold_left (fun acc kv => obj_set (fst kv) (snd kv) acc) data base.

Section Page.

(** The rest of the document, the network, the platform's
    [String.prototype.trim] on the value of the URL field, and the
    rendering code that only touches that rest: the body of
    [displayBrandProfile] after its first two statements, the emptying of
    the calendar container and the cards of [displayCalendar], and
    [navigateToSection]. *)
Variable Dom : Type.
Variable World : Type.
Variable fetch : Api.Request -> World -> Outcome Api.Response * World.
Variable JSON_stringify : JsVal -> string.
Variable String_trim : string -> string.
Variable render_profile : JsVal -> Eff Dom unit.
Variable clear_calendar : Dom -> Dom.
Variable render_calendar : list JsVal -> Eff Dom unit.
Variable navigateToSection : string -> Eff Dom unit.

(** The two variables of the script, the two inputs it reads, the
    [hidden] class and the text of the elements it shows and hides. *)
Record Page : Type := mkPage {
  brandData : JsVal;
  calendarData : JsVal;
  websiteUrl_value : string;
  contentTone_value : string;
  hidden : El -> bool;
  textContent : El -> string;
  dom : Dom;
  net : Api.Net World
}.

Definition set_hidden (el : El) (b : bool) : Eff Page unit :=
  modify (fun p =>
    {| brandData := brandData p; calendarData := calendarData p;
       websiteUrl_value := websiteUrl_value p;
       contentTone_value := contentTone_value p;
       hidden := fun e => if El_eqb e el then b else hidden p e;
       textContent := textContent p; dom := dom p; net := net p |}).

(** [function showElement(el)], [function hideElement(el)]. *)
Definition showElement (el : El) : Eff Page unit := set_hidden el false.
Definition hideElement (el : El) : Eff Page unit := set_hidden el true.

Local Open Scope eff_scope.

(** [function showError(el, message)]. *)
Definition showError (el : El) (message : string) : Eff Page unit :=
  modify (fun p =>
    {| brandData := brandData p; calendarData := calendarData p;
       websiteUrl_value := websiteUrl_value p;
       contentTone_value := contentTone_value p;
       hidden := hidden p;
       textContent := fun e => if El_eqb e el then message else textContent p e;
       dom := dom p; net := net p |}) ;;;
  showElement el.

Definition set_brandData (v : JsVal) : Eff Page unit :=
  modify (fun p =>
    {| brandData := v; calendarData := calendarData p;
       websiteUrl_value := websiteUrl_value p;
       contentTone_value := contentTone_value p;
       hidden := hidden p; textContent := textContent p;
       dom := dom p; net := net p |}).

Definition set_calendarData (v : JsVal) : Eff Page unit :=
  modify (fun p =>
    {| brandData := brandData p; calendarData := v;
       websiteUrl_value := websiteUrl_value p;
       contentTone_value := contentTone_value p;
       hidden := hidden p; textContent := textContent p;
       dom := dom p; net := net p |}).

Definition in_dom {A} (m : Eff Dom A) : Eff Page A :=
  fun p =>
    let (o, d') := m (dom p) in
    (o, {| brandData := brandData p; calendarData := calendarData p;
           websiteUrl_value := websiteUrl_value p;
           contentTone_value := contentTone_value p;
           hidden := hidden p; textContent := textContent p;
           dom := d'; net := net p |}).

Definition page_fetch (rq : Api.Request) : Eff Page Api.Response :=
  fun p =>
    let (o, n') := Api.js_fetch World fetch rq (net p) in
    (o, {| brandData := brandData p; calendarData := calendarData p;
           websiteUrl_value := websiteUrl_value p;
           contentTone_value := contentTone_value p;
           hidden := hidden p; textContent := textContent p;
           dom := dom p; net := n' |}).

(** [fetch(path, { method: 'POST', headers: {...}, body:
    JSON.stringify(payload) })] with a path relative to the page. *)
Definition post (path : string) (payload : JsVal) : Api.Request :=
  {| Api.req_url := path;
     Api.req_method := "POST";
     Api.req_headers := [("Content-Type", "application/json")];
     Api.req_body := JSON_stringify payload |}.

(** [function displayBrandProfile(data)]: the profile is shown, the error
    hidden, and the first thing read is [data.name]. *)
Definition displayBrandProfile (data : JsVal) : Eff Page unit :=
  showElement brandProfile ;;;
  hideElement brandError ;;;
  lift_outcome (get_prop data "name") ;;;
  in_dom (render_profile data).

(** [function displayCalendar(calendar)]: the container is emptied, then
    [calendar.forEach] needs an array. *)
Definition displayCalendar (calendar : JsVal) : Eff Page unit :=
  in_dom (modify clear_calendar) ;;;
  match calendar with
  | JArr days => in_dom (render_calendar days)
  | JUndefined | JNull =>
      lift_outcome (get_prop calendar "forEach") ;;; ret tt
  | _ => throw (mkError "TypeError" "calendar.forEach is not a function")
  end.

Definition analyze_request (source : JsVal) (data : list (string * JsVal))
  : Api.Request :=
  post "/brand/analyze" (JObj (spread_after [("source", source)] data)).

(** [async function analyzeBrand(source, data)], [data] an object. *)
Definition analyzeBrand (source : JsVal) (data : list (string * JsVal))
  : Eff Page unit :=
  try_catch
    (showElement loadingDiv ;;;
     hideElement brandError ;;;
     response <- page_fetch (analyze_request source data) ;;
     result <- lift_outcome (Api.json response) ;;
     (if negb (Api.ok response) then
        e <- lift_outcome (get_prop result "error") ;;
        throw (new_Error (e ||| JStr "Failed to analyze brand"))
      else ret tt) ;;;
     brand <- lift_outcome (get_prop result "brand_data") ;;
     set_brandData brand ;;;
     displayBrandProfile brand ;;;
     hideElement loadingDiv ;;;
     in_dom (navigateToSection "brand"))
    (fun error =>
       hideElement loadingDiv ;;;
       showError brandError (err_message error)).

(** The click handler of the "analyze" button:
    [const url = websiteUrl.value.trim(); if (!url) ...]. *)
Definition onAnalyzeUrlClick : Eff Page unit :=
  p <- BrandContextRest.current ;;
  let url := String_trim (websiteUrl_value p) in
  if negb (truthy (JStr url)) then showError brandError "Please enter a valid URL"
  else analyzeBrand (JStr "url") [("url", JStr url)].

Definition calendar_request (brand : JsVal) (tone : string) : Api.Request :=
  post "/calendar/generate" (JObj [("brand_data", brand); ("tone", JStr tone)]).

(** [async function generateCalendar()]. *)
Definition generateCalendar : Eff Page unit :=
  p <- BrandContextRest.current ;;
  if negb (truthy (brandData p))
  then showError calendarError "Please analyze a brand first"
  else
    try_catch
      (showElement calendarLoading ;;;
       hideElement calendarError ;;;
       hideElement calendarContainer ;;;
       let tone := contentTone_value p in
       response <- page_fetch (calendar_request (brandData p) tone) ;;
       result <- lift_outcome (Api.json response) ;;
       (if negb (Api.ok response) then
          e <- lift_outcome (get_prop result "error") ;;
          throw (new_Error (e ||| JStr "Failed to generate calendar"))
        else ret tt) ;;;
       calendar <- lift_outcome (get_prop result "calendar") ;;
       set_calendarData calendar ;;;
       displayCalendar calendar ;;;
       hideElement calendarLoading ;;;
       showElement calendarContainer ;;;
       in_dom (navigateToSection "calendar"))
      (fun error =>
         hideElement calendarLoading ;;;
         showError calendarError (err_message error)).

End Page.

End MainJs.

Module BrandPersonaRestSpec.

Import BrandPersona.

(** No ['#'] in the string. *)
Fixpoint hash_free (s : string) : bool :=
  match s with
  | EmptyString => true
  | String c rest => negb (c =? "#")%char && hash_free rest
  end.

(** A color as the API documents it: a hex string, or a tuple whose
    first component is one. *)
Definition color_entry (c : JsVal) : Prop :=
  match c with
  | JStr _ => True
  | JArr (JStr _ :: _) => True
  | _ => False
  end.

End BrandPersonaRestSpec.

Module MainJsSpec.

Import MainJs.

(** The white space and line terminators of ECMAScript, one by one:
    TAB, LF, VT, FF, CR, SP, NBSP, U+1680, U+2000 to U+200A, LS, PS,
    U+202F, U+205F, U+3000, U+FEFF. *)
Definition white_space_units : list N :=
  [9; 10; 11; 12; 13; 32; 160; 5760;
   8192; 8193; 8194; 8195; 8196; 8197; 8198; 8199; 8200; 8201; 8202;
   8232; 8233; 8239; 8287; 12288; 65279]%N.

(** A color as [parseColors] delivers it: not empty, no white space as
    its first or last code unit, no comma. *)
Definition clean_color (s : JsString) : Prop :=
  s <> [] /\
  (forall u rest, s = u :: rest -> ~ In u white_space_units) /\
  (forall init u, s = (init ++ [u])%list -> ~ In u white_space_units) /\
  ~ In 44%N s.

(** [colors.join(',')]. *)
Fixpoint join_commas (colors : list JsString) : JsString :=
  match colors with
  | [] => []
  | [c] => c
  | c :: rest => (c ++ 44%N :: join_commas rest)%list
  end.

(** The code units of a one-byte text. *)
Definition units (s : string) : JsString :=
  map (fun c => N.of_nat (nat_of_ascii c)) (list_ascii_of_string s).

End MainJsSpec.

Module AnalysisLoaderSpec.

(** No ['.'] in the string. *)
Fixpoint dot_free (s : string) : bool :=
  match s with
  | EmptyString => true
  | String c rest => negb (c =? ".")%char && dot_free rest
  end.

(** The component once the effect has started and settled. *)
Definition started (l : AnalysisLoader.Loader) (analyzing : bool) (failure : JsVal)
  : AnalysisLoader.Loader :=
  {| AnalysisLoader.analysisStarted := true;
     AnalysisLoader.isAnalyzing := analyzing;
     AnalysisLoader.apiError := failure;
     AnalysisLoader.navigated := AnalysisLoader.navigated l |}.

(** A server that answers the first request with the analysis of Acme
    and every later one with a gateway error; its state counts the
    requests. *)
Definition flaky : Api.Request -> nat -> Outcome Api.Response * nat :=
  fun _ served =>
    match served with
    | O => (Return Sample.analysis_ok, 1%nat)
    | S _ => (Return Sample.bad_gateway, S served)
    end.

End AnalysisLoaderSpec.

(** A page and its surroundings on which the statements about
    [main.js] are exercised: the rendering code succeeds and leaves the
    rest of the document alone. *)
Module SamplePage.

Import MainJs.

Definition render_profile : JsVal -> Eff unit unit := fun _ d => (Return tt, d).
Definition clear_calendar : unit -> unit := fun d => d.
Definition render_calendar : list JsVal -> Eff unit unit := fun _ d => (Return tt, d).
Definition navigateToSection : string -> Eff unit unit := fun _ d => (Return tt, d).

(** The page as loaded, with [input] typed in the URL field. *)
Definition loaded (input : string) (brand : JsVal) : Page unit unit :=
  {| brandData := brand; calendarData := JNull;
     websiteUrl_value := input; contentTone_value := "casual";
     hidden := fun _ => true; textContent := fun _ => "";
     dom := tt; net := Sample.idle |}.

(** An answer that is ok but reports a failure. *)
Definition ok_but_failed : Api.Response :=
  {| Api.status := 200;
     Api.json := Return (JObj [("success", JBool false);
                               ("error", JStr "Could not reach the site")]) |}.

(** A stand-in for the platform's [trim] on one-byte text. *)
Definition trim (s : string) : string :=
  let fix trim_end (s : string) : string :=
    match s with
    | EmptyString => EmptyString
    | String c rest =>
        match trim_end rest with
        | EmptyString =>
            if BrandPersona.is_space c then EmptyString else String c EmptyString
        | kept => String c kept
        end
    end in
  trim_end (BrandPersona.skip_spaces s).

(** A stand-in for the platform's serializer that prints objects and
    strings (without escapes). *)
Definition quote : string := String (ascii_of_nat 34) EmptyString.

Fixpoint json_text (v : JsVal) : string :=
  match v with
  | JStr s => quote ++ s ++ quote
  | JObj fs =>
      "{" ++ (fix fields (fs : list (string * JsVal)) : string :=
                match fs with
                | [] => EmptyString
                | (k, x) :: rest =>
                    quote ++ k ++ quote ++ ":" ++ json_text x
                    ++ match rest with
                       | [] => EmptyString
                       | _ :: _ => "," ++ fields rest
                       end
                end) fs ++ "}"
  | other => ToString other
  end.

(** A stand-in for the platform's [toUpperCase] on text from a to z. *)
Fixpoint toUpperCase (s : string) : string :=
  match s with
  | EmptyString => EmptyString
  | String c rest => String (AnalysisLoaderLegacy.upper_char c) (toUpperCase rest)
  end.

(** A stand-in for the platform's [slice] on one-byte text. *)
Definition slice (from to : nat) (s : string) : string :=
  substring from (to - from) s.

Definition with_url (u : string) : BrandContext.Ctx unit :=
  BrandContext.mkCtx
    {| BrandContext.url := JStr u; BrandContext.brandData := JNull;
       BrandContext.contentSettings := BrandContext.default_settings;
       BrandContext.generatedPosts := JArr [];
       BrandContext.loading := false; BrandContext.error := JNull |}
    Sample.idle.

End SamplePage.

(* ================================================================== *)
(** * Properties *)
(* ================================================================== *)

(** ** BrandPersona: the contrast helper and the palette *)

Module BrandPersonaFacts.

Import BrandPersona.
Import BrandPersonaSpec.

Example hex_table :
  map digit_value hex_chars =
  [0; 1; 2; 3; 4; 5; 6; 7; 8; 9; 10; 11; 12; 13; 14; 15; 10; 11; 12; 13; 14; 15]%Z /\
  is_hex "g" = false /\ is_hex "#" = false /\ is_hex " " = false.
Proof. repeat split. Qed.

Example hex_byte_ff : hex_byte "f" "F" = 255%Z.
Proof. reflexivity. Qed.

Example hex_byte_0a : hex_byte "0" "a" = 10%Z.
Proof. reflexivity. Qed.

Example parseInt16_examples :
  parseInt16 "ff" = Some 255%Z /\ parseInt16 "0x" = None /\
  parseInt16 "-5" = Some (-5)%Z /\ parseInt16 "" = None /\
  parseInt16 "g1" = None /\ parseInt16 "1g" = Some 1%Z.
Proof. repeat split. Qed.

Example isLightColor_white : isLightColor (JStr "#ffffff") = Return true.
Proof. reflexivity. Qed.

Example isLightColor_brand_green : isLightColor (JStr "#00c237") = Return false.
Proof. reflexivity. Qed.

Example isLightColor_short : isLightColor (JStr "#fff") = Return false.
Proof. reflexivity. Qed.

Lemma is_hex_enumerated (c : ascii) : is_hex c = true -> In c hex_chars.
Proof.
  unfold is_hex. intro H. apply existsb_exists in H.
  destruct H as (d & Hin & Heq). apply Ascii.eqb_eq in Heq. now subst.
Qed.

Lemma parse_pairs_checked :
  forallb (fun hi =>
    forallb (fun lo =>
      match parseInt16 (String hi (String lo EmptyString)) with
      | Some v => (v =? hex_byte hi lo)%Z
      | None => false
      end) hex_chars) hex_chars = true.
Proof. vm_compute. reflexivity. Qed.

(** Two hexadecimal digits parse to the byte they write. *)
Lemma parseInt16_pair (hi lo : ascii) :
  is_hex hi = true -> is_hex lo = true ->
  parseInt16 (String hi (String lo EmptyString)) = Some (hex_byte hi lo).
Proof.
  intros Hhi Hlo.
  apply is_hex_enumerated in Hhi. apply is_hex_enumerated in Hlo.
  pose proof parse_pairs_checked as H.
  rewrite forallb_forall in H. specialize (H hi Hhi).
  rewrite forallb_forall in H. specialize (H lo Hlo).
  destruct (parseInt16 (String hi (String lo EmptyString))) as [v|];
    [ apply Z.eqb_eq in H; now subst | discriminate ].
Qed.

Lemma above_155_iff (x : Q) : above_155 x = true <-> (155 # 1 < x)%Q.
Proof.
  unfold above_155. rewrite negb_true_iff.
  split; intro H.
  - apply Qnot_le_lt. intro Hle. apply Qle_bool_iff in Hle. congruence.
  - destruct (Qle_bool x (155 # 1)) eqn:E; [| reflexivity ].
    apply Qle_bool_iff in E. exfalso. exact (Qlt_not_le _ _ H E).
Qed.

(** C9.  [isLightColor] answers true on null, on undefined and on the
    empty string; on a well-formed [#RRGGBB] string it answers true
    exactly when (299*R + 587*G + 114*B)/1000 is strictly above 155,
    R, G and B being the bytes written by the three pairs of digits. *)
Theorem isLightColor_spec :
  isLightColor JNull = Return true /\
  isLightColor JUndefined = Return true /\
  isLightColor (JStr "") = Return true /\
  forall r1 r2 g1 g2 b1 b2 : ascii,
    is_hex r1 = true -> is_hex r2 = true ->
    is_hex g1 = true -> is_hex g2 = true ->
    is_hex b1 = true -> is_hex b2 = true ->
    let R := hex_byte r1 r2 in
    let G := hex_byte g1 g2 in
    let B := hex_byte b1 b2 in
    exists light : bool,
      isLightColor (JStr (rrggbb r1 r2 g1 g2 b1 b2)) = Return light /\
      (light = true <-> (155 # 1 < (299 * R + 587 * G + 114 * B) # 1000)%Q).
Proof.
  repeat split; try reflexivity.
  intros r1 r2 g1 g2 b1 b2 Hr1 Hr2 Hg1 Hg2 Hb1 Hb2 R G B.
  exists (above_155 (brightness R G B)). split.
  - unfold isLightColor, rrggbb. cbn [truthy negb String.eqb].
    cbn [remove_first_hash Ascii.eqb Bool.eqb].
    unfold substr. cbn [substring].
    rewrite (parseInt16_pair r1 r2 Hr1 Hr2),
            (parseInt16_pair g1 g2 Hg1 Hg2),
            (parseInt16_pair b1 b2 Hb1 Hb2).
    reflexivity.
  - rewrite above_155_iff. unfold brightness.
    replace (299 * R + 587 * G + 114 * B)%Z with (R * 299 + G * 587 + B * 114)%Z
      by ring.
    tauto.
Qed.

Lemma isLightColor_spec_witness :
  exists light : bool,
    isLightColor (JStr "#00c237") = Return light /\
    (light = true <->
     (155 # 1 < (299 * hex_byte "0" "0" + 587 * hex_byte "c" "2"
                 + 114 * hex_byte "3" "7") # 1000)%Q).
Proof.
  destruct isLightColor_spec as (_ & _ & _ & H).
  apply (H "0" "0" "c" "2" "3" "7")%char; reflexivity.
Defined.

Example displayColors_tuples :
  displayColors
    (JObj [("colors", JArr [JArr [JStr "#ff0000"; JStr "Red"]; JStr "#00ff00"])])
  = Return [JStr "#ff0000"; JStr "#00ff00"].
Proof. reflexivity. Qed.

Example displayColors_no_brand : displayColors JNull = Return fallbackColors.
Proof. reflexivity. Qed.

Example displayColors_seven :
  displayColors
    (JObj [("colors", JArr (map JNum [1; 2; 3; 4; 5; 6; 7]%Z))])
  = Return (map JNum [1; 2; 3; 4; 5]%Z).
Proof. reflexivity. Qed.

Example displayColors_not_a_list :
  is_throw (displayColors (JObj [("colors", JStr "#ff0000")])) = true.
Proof. reflexivity. Qed.

(** The component computes a palette exactly when the colors of the
    brand, after the [|| []] default, are an array. *)
Lemma displayColors_returns_iff (brandData : JsVal) :
  (exists shown, displayColors brandData = Return shown) <->
  (exists items, colors brandData = JArr items).
Proof.
  unfold displayColors, processedColors. split.
  - intros [shown H]. destruct (colors brandData); try discriminate H.
    eexists; reflexivity.
  - intros [items H]. rewrite H. eexists; reflexivity.
Qed.

Lemma colors_of_list (brandData : JsVal) (items : list JsVal) :
  get_prop_opt brandData "colors" = JArr items -> colors brandData = JArr items.
Proof. unfold colors, js_or. intros ->. reflexivity. Qed.

Lemma colors_default (brandData : JsVal) :
  truthy (get_prop_opt brandData "colors") = false -> colors brandData = JArr [].
Proof. unfold colors, js_or. intros ->. reflexivity. Qed.

Lemma processed_shown_for (items : list JsVal) :
  Forall2 shown_for items (map first_component items).
Proof.
  induction items as [|entry items IH]; cbn [map]; constructor; [| exact IH ].
  destruct entry as [| | | | |[|first rest]|]; reflexivity.
Qed.

(** C10.  The palette shown is never empty and has at most five entries:
    the colors of the brand are cut to their first five, every [hex, name]
    tuple is replaced by its first component and every other entry kept,
    and when nothing is left, or the brand has no colors, the three
    fallback colors are shown. *)
Theorem displayColors_spec (brandData : JsVal) :
  (forall items : list JsVal,
      get_prop_opt brandData "colors" = JArr items ->
      exists shown : list JsVal,
        displayColors brandData = Return shown /\
        (1 <= List.length shown <= 5)%nat /\
        (items = [] ->
         shown = [JStr "#111111"; JStr "#00c237"; JStr "#f9f9f9"]) /\
        (items <> [] -> Forall2 shown_for (firstn 5 items) shown)) /\
  (truthy (get_prop_opt brandData "colors") = false ->
   displayColors brandData
   = Return [JStr "#111111"; JStr "#00c237"; JStr "#f9f9f9"]).
Proof.
  split.
  - intros items H.
    unfold displayColors, processedColors. rewrite (colors_of_list _ _ H).
    pose proof (processed_shown_for (firstn 5 items)) as Hshown.
    assert (Hlen : (List.length (map first_component (firstn 5 items)) <= 5)%nat).
    { rewrite length_map. apply firstn_le_length. }
    destruct items as [|entry items].
    + exists fallbackColors. cbn. repeat split; try lia. congruence.
    + cbn [firstn map] in *. eexists. split; [ reflexivity |].
      cbn [List.length Nat.ltb Nat.leb] in *.
      repeat split; try lia; [ discriminate | intros _; exact Hshown ].
  - intro H. unfold displayColors, processedColors.
    rewrite (colors_default _ H). reflexivity.
Qed.

Lemma displayColors_spec_witness :
  displayColors
    (JObj [("colors", JArr [JArr [JStr "#ff0000"; JStr "Red"]; JStr "#00ff00"])])
  = Return [JStr "#ff0000"; JStr "#00ff00"] /\
  displayColors (JObj [("name", JStr "Acme")])
  = Return [JStr "#111111"; JStr "#00c237"; JStr "#f9f9f9"].
Proof.
  split.
  - destruct (displayColors_spec
                (JObj [("colors",
                        JArr [JArr [JStr "#ff0000"; JStr "Red"]; JStr "#00ff00"])]))
      as [H _].
    destruct (H [JArr [JStr "#ff0000"; JStr "Red"]; JStr "#00ff00"] eq_refl)
      as (shown & Hret & _ & _ & Hshown).
    rewrite Hret. f_equal.
    specialize (Hshown ltac:(discriminate)). cbn [firstn] in Hshown.
    inversion Hshown as [|e1 h1 es1 hs1 H1 Hrest1]; subst.
    inversion Hrest1 as [|e2 h2 es2 hs2 H2 Hrest2]; subst.
    inversion Hrest2; subst.
    cbn in H1, H2. now subst.
  - destruct (displayColors_spec (JObj [("name", JStr "Acme")])) as [_ H].
    apply H. reflexivity.
Defined.

End BrandPersonaFacts.

(** ** services/api.js *)

Module ApiFacts.

Import Api.
Import ApiSpec.

(** Runs the monadic plumbing of an async function on the case at hand. *)
Ltac run_eff :=
  unfold bind, try_catch, try_finally, lift_outcome, ret, throw, Js.modify;
  cbn [fst snd].

Section WithNetwork.

Variable World : Type.
Variable fetch : Request -> World -> Outcome Response * World.
Variable JSON_stringify : JsVal -> string.

Abbreviation analyzeBrand := (Api.analyzeBrand World fetch JSON_stringify).
Abbreviation generateCalendar := (Api.generateCalendar World fetch JSON_stringify).
Abbreviation analyze_request := (Api.analyze_request JSON_stringify).
Abbreviation calendar_request := (Api.calendar_request JSON_stringify).
Abbreviation js_fetch := (Api.js_fetch World fetch).

Lemma js_fetch_run (rq : Request) (n : Net World) :
  js_fetch rq n =
  (fst (fetch rq (world n)),
   mkNet (snd (fetch rq (world n))) (sent n ++ [rq])%list).
Proof. unfold Api.js_fetch. destruct (fetch rq (world n)); reflexivity. Qed.

(** Whatever the answer, [analyzeBrand] sends its one request and leaves
    the network as [fetch] left it. *)
Lemma analyzeBrand_net (url : JsVal) (n : Net World) :
  snd (analyzeBrand url n) =
  mkNet (snd (fetch (analyze_request url) (world n)))
        (sent n ++ [analyze_request url])%list.
Proof.
  unfold Api.analyzeBrand. unfold bind at 1. rewrite js_fetch_run.
  destruct (fetch (analyze_request url) (world n)) as [[resp|e] w']; cbn [fst snd];
    [| reflexivity ].
  destruct (ok resp); cbn [negb]; run_eff.
  - destruct (json resp) as [data|e]; [| reflexivity ].
    destruct (get_prop data "success") as [s|e]; [| reflexivity ].
    destruct (truthy s); cbn [negb].
    + destruct (get_prop data "brand_data"); reflexivity.
    + destruct (get_prop data "error"); reflexivity.
  - destruct (json resp) as [data|e].
    + destruct (get_prop data "error"); reflexivity.
    + reflexivity.
Qed.

Lemma generateCalendar_net (brandData tone : JsVal) (n : Net World) :
  snd (generateCalendar brandData tone n) =
  mkNet (snd (fetch (calendar_request brandData tone) (world n)))
        (sent n ++ [calendar_request brandData tone])%list.
Proof.
  unfold Api.generateCalendar. unfold bind at 1. rewrite js_fetch_run.
  destruct (fetch (calendar_request brandData tone) (world n)) as [[resp|e] w'];
    cbn [fst snd]; [| reflexivity ].
  destruct (ok resp); cbn [negb]; run_eff.
  - destruct (json resp) as [data|e]; [| reflexivity ].
    destruct (get_prop data "success") as [s|e]; [| reflexivity ].
    destruct (truthy s); cbn [negb].
    + destruct (get_prop data "calendar"); reflexivity.
    + destruct (get_prop data "error"); reflexivity.
  - destruct (json resp) as [data|e].
    + destruct (get_prop data "error"); reflexivity.
    + reflexivity.
Qed.

(** A body whose [success] field is [true] is an object. *)
Lemma success_true_object (data : JsVal) :
  get_prop data "success" = Return (JBool true) ->
  exists fs, data = JObj fs /\ assoc "success" fs = JBool true.
Proof.
  destruct data; cbn; intro H; try discriminate H.
  - eexists; split; [ reflexivity | congruence ].
Qed.

(** C3.  Every call of [analyzeBrand(url)] sends one POST request to
    [/brand/analyze] whose body is the JSON text of
    [{source: "url", url: url}]; when the response is ok and the [success]
    field of its parsed body is [true], the call returns the [brand_data]
    field of that body. *)
Theorem analyzeBrand_spec (url : JsVal) (n : Net World) :
  let rq := analyze_request url in
  sent (snd (analyzeBrand url n)) = (sent n ++ [rq])%list /\
  req_method rq = "POST" /\
  req_url rq = "http://localhost:5001/brand/analyze" /\
  req_headers rq = [("Content-Type", "application/json")] /\
  req_body rq = JSON_stringify (JObj [("source", JStr "url"); ("url", url)]) /\
  forall (resp : Response) (w' : World) (data : JsVal),
    fetch rq (world n) = (Return resp, w') ->
    ok resp = true ->
    json resp = Return data ->
    get_prop data "success" = Return (JBool true) ->
    get_prop data "brand_data" = Return (get_prop_opt data "brand_data") /\
    fst (analyzeBrand url n) = Return (get_prop_opt data "brand_data").
Proof.
  intro rq. split; [ rewrite analyzeBrand_net; reflexivity |].
  repeat (split; [ reflexivity |]).
  intros resp w' data Hfetch Hok Hjson Hsuccess.
  destruct (success_true_object data Hsuccess) as (fs & -> & Hs).
  split; [ reflexivity |].
  unfold Api.analyzeBrand. unfold bind at 1. rewrite js_fetch_run.
  fold rq. rewrite Hfetch. cbn [fst snd]. rewrite Hok. cbn [negb].
  run_eff. rewrite Hjson, Hsuccess. reflexivity.
Qed.

(** With a response in hand, [generateCalendar] is decided by its status
    and its body. *)
Lemma generateCalendar_on_response
      (brandData tone : JsVal) (n : Net World) (resp : Response) (w' : World) :
  fetch (calendar_request brandData tone) (world n) = (Return resp, w') ->
  fst (generateCalendar brandData tone n) =
  if ok resp then
    match json resp with
    | Throw e => Throw e
    | Return data =>
        match get_prop data "success" with
        | Throw e => Throw e
        | Return s =>
            if truthy s then get_prop data "calendar"
            else match get_prop data "error" with
                 | Throw e => Throw e
                 | Return e =>
                     Throw (new_Error (e ||| JStr "Calendar generation failed"))
                 end
        end
    end
  else
    match get_prop (match json resp with
                    | Return d => d
                    | Throw _ => JObj []
                    end) "error" with
    | Throw e => Throw e
    | Return e => Throw (new_Error (e ||| status_message resp))
    end.
Proof.
  intro Hfetch.
  unfold Api.generateCalendar. unfold bind at 1. rewrite js_fetch_run.
  rewrite Hfetch. cbn [fst snd].
  destruct (ok resp); cbn [negb]; run_eff.
  - destruct (json resp) as [data|e]; [| reflexivity ].
    destruct (get_prop data "success") as [s|e]; [| reflexivity ].
    destruct (truthy s); cbn [negb].
    + destruct (get_prop data "calendar"); reflexivity.
    + destruct (get_prop data "error"); reflexivity.
  - destruct (json resp) as [data|e].
    + destruct (get_prop data "error"); reflexivity.
    + reflexivity.
Qed.

Lemma get_prop_total (v : JsVal) (k : string) :
  nullish v = false -> get_prop v k = Return (get_prop_opt v k).
Proof. destruct v; cbn; intro H; try discriminate H; reflexivity. Qed.


End WithNetwork.

Lemma analyzeBrand_spec_witness :
  fst (Api.analyzeBrand unit (Sample.answering Sample.analysis_ok) Sample.stringify
         (JStr "https://acme.example") Sample.idle)
  = Return Sample.acme.
Proof.
  destruct (analyzeBrand_spec unit (Sample.answering Sample.analysis_ok)
              Sample.stringify (JStr "https://acme.example") Sample.idle)
    as (_ & _ & _ & _ & _ & H).
  apply (H Sample.analysis_ok tt
           (JObj [("success", JBool true); ("brand_data", Sample.acme)]));
    reflexivity.
Defined.

Example generateCalendar_default_tone :
  req_body (Api.calendar_request Sample.stringify Sample.acme JUndefined)
  = Sample.stringify (JObj [("brand_data", Sample.acme); ("tone", JStr "professional")]).
Proof. reflexivity. Qed.

Example generateCalendar_no_success_field :
  fst (Api.generateCalendar unit
         (Sample.answering {| status := 200; json := Return (JObj []) |})
         Sample.stringify Sample.acme (JStr "casual") Sample.idle)
  = Throw (mkError "Error" "Calendar generation failed").
Proof. reflexivity. Qed.

Example generateCalendar_named_error :
  fst (Api.generateCalendar unit
         (Sample.answering
            {| status := 500;
               json := Return (JObj [("success", JBool false);
                                     ("error", JStr "Gemini quota exceeded")]) |})
         Sample.stringify Sample.acme (JStr "casual") Sample.idle)
  = Throw (mkError "Error" "Gemini quota exceeded").
Proof. reflexivity. Qed.

Example generateCalendar_network_down :
  fst (Api.generateCalendar unit
         (fun _ w => (Throw (mkError "TypeError" "Failed to fetch"), w))
         Sample.stringify Sample.acme (JStr "casual") Sample.idle)
  = Throw (mkError "TypeError" "Failed to fetch").
Proof. reflexivity. Qed.



End ApiFacts.

(** ** context/BrandContext.jsx *)

Module BrandContextFacts.

Import BrandContext.
Import ApiFacts.

Section WithNetwork.

Variable World : Type.
Variable fetch : Api.Request -> World -> Outcome Api.Response * World.
Variable JSON_stringify : JsVal -> string.

Abbreviation analyzeBrand := (BrandContext.analyzeBrand World fetch JSON_stringify).
Abbreviation analyzeBrandAPI := (BrandContext.analyzeBrandAPI World fetch JSON_stringify).

(** The message the provider keeps for an error. *)
Lemma kept_message (e : Error) :
  JStr (err_message e) ||| JStr "Failed to analyze brand" =
  JStr (if err_message e =? "" then "Failed to analyze brand" else err_message e).
Proof. unfold js_or. cbn. destruct (err_message e =? ""); reflexivity. Qed.

(** The provider's action, run on either completion of the API call. *)
Lemma analyzeBrand_run (brandUrl : JsVal) (c : Ctx World) :
  analyzeBrand brandUrl c =
  match analyzeBrandAPI brandUrl (net c) with
  | (Return data, n') =>
      (Return data,
       mkCtx {| url := url (st c); brandData := data;
                contentSettings := contentSettings (st c);
                generatedPosts := generatedPosts (st c);
                loading := false; error := JNull |} n')
  | (Throw err, n') =>
      (Throw err,
       mkCtx {| url := url (st c); brandData := brandData (st c);
                contentSettings := contentSettings (st c);
                generatedPosts := generatedPosts (st c);
                loading := false;
                error := JStr (err_message err) ||| JStr "Failed to analyze brand" |}
             n')
  end.
Proof.
  unfold BrandContext.analyzeBrand, setLoading, setError, setBrandData,
    on_state, await_api.
  run_eff. cbn [st net].
  destruct (analyzeBrandAPI brandUrl (net c)) as [[data|err] n']; reflexivity.
Qed.

(** C8.  When the API call rejects, [analyzeBrand] of the provider leaves
    [brandData] (and every other cell but [loading] and [error]) as it
    was, puts the message of the failure in [error] (the message of the
    error, or "Failed to analyze brand" when that message is empty),
    rejects with the same error, and ends with [loading] false; when the
    API call fulfils, it ends with [loading] false as well. *)
Theorem analyzeBrand_atomic (brandUrl : JsVal) (c : Ctx World) :
  (forall (err : Error) (n' : Api.Net World),
      analyzeBrandAPI brandUrl (net c) = (Throw err, n') ->
      let c' := snd (analyzeBrand brandUrl c) in
      fst (analyzeBrand brandUrl c) = Throw err /\
      brandData (st c') = brandData (st c) /\
      url (st c') = url (st c) /\
      contentSettings (st c') = contentSettings (st c) /\
      generatedPosts (st c') = generatedPosts (st c) /\
      error (st c') =
        JStr (if err_message err =? "" then "Failed to analyze brand"
              else err_message err) /\
      loading (st c') = false /\
      net c' = n') /\
  (forall (data : JsVal) (n' : Api.Net World),
      analyzeBrandAPI brandUrl (net c) = (Return data, n') ->
      let c' := snd (analyzeBrand brandUrl c) in
      fst (analyzeBrand brandUrl c) = Return data /\
      brandData (st c') = data /\
      error (st c') = JNull /\
      loading (st c') = false /\
      net c' = n').
Proof.
  split.
  - intros err n' H c'. subst c'. rewrite analyzeBrand_run, H. cbn.
    rewrite <- kept_message. repeat split.
  - intros data n' H c'. subst c'. rewrite analyzeBrand_run, H. cbn.
    repeat split.
Qed.

(** Either way the call completes and [loading] is false afterwards. *)
Lemma analyzeBrand_loading_false (brandUrl : JsVal) (c : Ctx World) :
  loading (st (snd (analyzeBrand brandUrl c))) = false.
Proof.
  rewrite analyzeBrand_run.
  destruct (analyzeBrandAPI brandUrl (net c)) as [[data|err] n']; reflexivity.
Qed.

End WithNetwork.

Example analyzeBrand_gateway_error :
  let c := mkCtx {| url := JStr "https://acme.example"; brandData := Sample.acme;
                    contentSettings := default_settings; generatedPosts := JArr [];
                    loading := false; error := JNull |} Sample.idle in
  let r := BrandContext.analyzeBrand unit (Sample.answering Sample.bad_gateway)
             Sample.stringify (JStr "https://acme.example") c in
  fst r = Throw (mkError "Error" "API request failed with status 502") /\
  brandData (st (snd r)) = Sample.acme /\
  error (st (snd r)) = JStr "API request failed with status 502" /\
  loading (st (snd r)) = false.
Proof. repeat split. Qed.

Lemma analyzeBrand_atomic_witness :
  brandData
    (st (snd (BrandContext.analyzeBrand unit (Sample.answering Sample.bad_gateway)
                Sample.stringify (JStr "https://acme.example")
                (mkCtx initial Sample.idle))))
  = JNull.
Proof.
  destruct (analyzeBrand_atomic unit (Sample.answering Sample.bad_gateway)
              Sample.stringify (JStr "https://acme.example")
              (mkCtx initial Sample.idle)) as [H _].
  destruct (H (mkError "Error" "API request failed with status 502")
              (Api.mkNet tt [Api.analyze_request Sample.stringify
                               (JStr "https://acme.example")])
              eq_refl) as (_ & Hdata & _).
  exact Hdata.
Defined.

End BrandContextFacts.

(** ** The extraction pipeline, as documented *)

Module AssetExtractorFacts.

Import AssetExtractor.
Import AssetExtractorSpec.
Import ApiFacts.

Example sample_trace :
  snd (run Sample.env "acme.example") =
  [ mkEvent BrandFetchEnrichment (QueryBrandFetch "acme.example");
    mkEvent Crawling (HttpGet "acme.example");
    mkEvent Crawling (HttpGet "/about");
    mkEvent Crawling (HttpGet "/services");
    mkEvent Crawling (HttpGet "/contact");
    mkEvent AssetDiscovery Compute;
    mkEvent CssAnalysis (HttpGet "/site.css");
    mkEvent DomScoring Compute;
    mkEvent TextCondensation Compute;
    mkEvent AISynthesis
      (CallModel ("<html>acme.example</html> <html>/about</html> "
                  ++ "<html>/services</html> <html>/contact</html>"));
    mkEvent ClusterMerge Compute ].
Proof. reflexivity. Qed.

Section Pipeline.

Variable env : Env.

Lemma fetch_all_run (s : Stage) (urls : list string) (tr : Trace) :
  fetch_all env s urls tr =
  (Return (map (http_get env) urls), (tr ++ gets s urls)%list).
Proof.
  revert tr. induction urls as [|u rest IH]; intro tr.
  - cbn. unfold ret. now rewrite app_nil_r.
  - cbn [fetch_all]. unfold fetch_in, emit. run_eff.
    rewrite IH. cbn [map gets]. unfold gets. now rewrite <- app_assoc.
Qed.

(** One analysis always completes, with this result and this trace. *)
Lemma run_unfolded (url : string) :
  run env url =
  (Return (merge_official env (url :: links env url)
             (cluster_palette env (scored env url)) (official env url)
             (gemini_flash env (condense env (pages env url)) (scored env url))),
   (before_model env url ++ model_call env url :: after_model)%list).
Proof.
  unfold run, extract, stage1_brandfetch, stage2_crawl, stage3_discover,
    stage4_css, stage5_score, stage6_condense, stage7_synthesize, stage8_merge,
    fetch_in, emit.
  run_eff. rewrite fetch_all_run. cbn [fst snd]. rewrite fetch_all_run.
  unfold before_model, model_call, after_model, scored, found, official,
    sheets, pages, links, homepage.
  f_equal. cbn [app]. repeat (rewrite <- app_assoc; cbn [app]). reflexivity.
Qed.

Lemma gets_stage (s s' : Stage) (urls : list string) :
  Stage_eqb s s' = false -> existsb (in_stage s') (gets s urls) = false.
Proof.
  intro H. induction urls as [|u rest IH]; [ reflexivity |].
  cbn. unfold in_stage at 1. cbn. rewrite H. exact IH.
Qed.

Lemma gets_no_model_call (s : Stage) (urls : list string) :
  filter is_model_call (gets s urls) = [].
Proof. induction urls as [|u rest IH]; [ reflexivity | exact IH ]. Qed.

Lemma before_model_no_call (url : string) :
  filter is_model_call (before_model env url) = [].
Proof.
  unfold before_model. rewrite !filter_app. cbn [filter is_model_call ev_action].
  rewrite !gets_no_model_call. reflexivity.
Qed.

Lemma before_model_has (url : string) :
  forallb (fun s => existsb (in_stage s) (before_model env url))
          [Crawling; AssetDiscovery; DomScoring; TextCondensation] = true.
Proof.
  unfold before_model. cbn [forallb].
  rewrite !existsb_app. cbn [existsb in_stage ev_stage Stage_eqb].
  rewrite !orb_true_r. reflexivity.
Qed.

Lemma after_model_clean :
  forallb (fun e => negb (website_stage (ev_stage e))) after_model = true.
Proof. reflexivity. Qed.

Lemma substring_length_le (s : string) :
  forall n m : nat, (String.length (substring n m s) <= m)%nat.
Proof.
  induction s as [|c s IH]; intros [|n] [|m]; cbn; try lia.
  - specialize (IH 0%nat m). lia.
  - apply (IH n 0%nat).
  - apply (IH n (S m)).
Qed.

(** The condensed text never exceeds its budget, whatever was crawled. *)
Lemma condense_length (crawled : list string) :
  (String.length (condense env crawled) <= CONDENSED_CHARS)%nat.
Proof. unfold condense. apply substring_length_le. Qed.

(** At most the homepage and three internal pages are read. *)
Lemma crawl_reads_at_most_four (url : string) :
  (1 <= List.length (pages env url) <= 1 + MAX_INTERNAL_PAGES)%nat.
Proof.
  unfold pages, links. cbn [List.length]. rewrite length_map.
  pose proof (firstn_le_length MAX_INTERNAL_PAGES
                (internal_links env url (homepage env url))). lia.
Qed.

(** C1.  One URL analysis completes and calls the model exactly once;
    the crawl, the asset discovery, the DOM-weighted scoring and the text
    condensation have all taken place before that call, and no stage that
    works on the website runs after it. *)
Theorem single_model_call (url : string) :
  is_throw (fst (run env url)) = false /\
  List.length (filter is_model_call (snd (run env url))) = 1%nat /\
  exists (pre : Trace) (text : string) (post : Trace),
    snd (run env url) = (pre ++ mkEvent AISynthesis (CallModel text) :: post)%list /\
    forallb (fun s => existsb (in_stage s) pre)
            [Crawling; AssetDiscovery; DomScoring; TextCondensation] = true /\
    forallb (fun e => negb (website_stage (ev_stage e))) post = true.
Proof.
  rewrite run_unfolded. cbn [fst snd is_throw]. split; [ reflexivity |]. split.
  - rewrite filter_app, before_model_no_call. reflexivity.
  - exists (before_model env url), (condense env (pages env url)), after_model.
    split; [ reflexivity |]. split.
    + apply before_model_has.
    + apply after_model_clean.
Qed.

(** C2.  The merge with the BrandFetch data is the last thing one URL
    analysis does: it comes after the crawl, the asset discovery, the
    scoring, the condensation and the model call, it happens once, and
    its output is the brand data returned.  BrandFetch itself is queried
    first, before the website is read. *)
Theorem merge_is_last (url : string) :
  exists pre : Trace,
    snd (run env url) = (pre ++ [mkEvent ClusterMerge Compute])%list /\
    existsb (in_stage ClusterMerge) pre = false /\
    forallb (fun s => existsb (in_stage s) pre)
            [Crawling; AssetDiscovery; DomScoring; TextCondensation; AISynthesis]
      = true /\
    hd_error pre
      = Some (mkEvent BrandFetchEnrichment (QueryBrandFetch (domain_hint env url))) /\
    fst (run env url) =
      Return (merge_official env (url :: links env url)
                (cluster_palette env (scored env url))
                (brandfetch_api env (domain_hint env url))
                (gemini_flash env (condense env (pages env url)) (scored env url))).
Proof.
  exists (before_model env url ++ [model_call env url])%list.
  rewrite run_unfolded. cbn [fst snd]. split.
  - unfold after_model. rewrite <- app_assoc. reflexivity.
  - split.
    + unfold before_model. rewrite !existsb_app.
      cbn [existsb in_stage ev_stage Stage_eqb model_call].
      rewrite !gets_stage by reflexivity. reflexivity.
    + split.
      * pose proof (before_model_has url) as H. cbn [forallb] in H |- *.
        rewrite !existsb_app.
        repeat (apply andb_true_iff in H; destruct H as [?H H]).
        repeat match goal with
               | Hs : existsb _ (before_model env url) = true |- _ =>
                   rewrite Hs; clear Hs
               end.
        cbn. rewrite orb_true_r. reflexivity.
      * split; reflexivity.
Qed.

(** C7.  The model is given the condensed text: every page stripped of
    its boilerplate, the whole cut to 3,500 characters; whatever the size
    of the crawled pages, no text passed to the model is longer. *)
Theorem condensed_text_bounded (url : string) :
  CONDENSED_CHARS = 3500%nat /\
  In (mkEvent AISynthesis (CallModel (condense env (pages env url))))
     (snd (run env url)) /\
  condense env (pages env url) =
    substring 0 3500
      (String.concat " " (map (strip_boilerplate env) (pages env url))) /\
  Forall (prompt_within 3500) (snd (run env url)).
Proof.
  rewrite run_unfolded. cbn [snd]. split; [ reflexivity |]. split.
  - apply in_or_app. right. left. reflexivity.
  - split; [ reflexivity |].
    apply Forall_app. split.
    + unfold before_model. repeat (apply Forall_app; split);
        repeat (apply Forall_cons; [ exact I |]);
        try apply Forall_nil;
        unfold gets; apply Forall_forall; intros e He;
        apply in_map_iff in He; destruct He as (u & <- & _); exact I.
    + apply Forall_cons.
      * apply (condense_length (pages env url)).
      * unfold after_model. apply Forall_cons; [ exact I | apply Forall_nil ].
Qed.

End Pipeline.

Example condensed_long_page :
  String.length
    (condense Sample.env [String.concat "" (repeat "0123456789" 400)]) = 3500%nat.
Proof. vm_compute. reflexivity. Qed.

End AssetExtractorFacts.

(** ** The client against the documented backend *)

Module SystemFacts.

Import System.
Import ApiFacts.

Section Run.

Variable env : AssetExtractor.Env.
Variable JSON_parse : string -> Outcome JsVal.
Variable JSON_stringify : JsVal -> string.
Variable standardize : JsVal -> JsVal.
Variable generate_calendar : JsVal -> JsVal -> JsVal.
Variable refuse : Api.Request -> Api.Response.

Abbreviation server :=
  (System.server env JSON_parse standardize generate_calendar refuse).
Abbreviation step :=
  (System.step env JSON_parse JSON_stringify standardize generate_calendar refuse).
Abbreviation steps :=
  (System.steps env JSON_parse JSON_stringify standardize generate_calendar refuse).
Abbreviation analyze :=
  (BrandContext.analyzeBrand Backend.Database server JSON_stringify).

(** The handler gives the store back untouched. *)
Lemma handle_keeps_store (rq : Api.Request) (db : Backend.Database) :
  snd (server rq db) = db.
Proof.
  unfold System.server, Backend.handle.
  destruct (Api.req_url rq =? Api.API_BASE_URL ++ "/health"); [ reflexivity |].
  destruct (JSON_parse (Api.req_body rq)); [| reflexivity ].
  repeat match goal with
         | |- context [if ?b then _ else _] => destruct b
         end; reflexivity.
Qed.

(** The answer to a request does not depend on the store. *)
Lemma handle_ignores_store (rq : Api.Request) (db db' : Backend.Database) :
  fst (server rq db) = fst (server rq db').
Proof.
  unfold System.server, Backend.handle.
  destruct (Api.req_url rq =? Api.API_BASE_URL ++ "/health"); [ reflexivity |].
  destruct (JSON_parse (Api.req_body rq)); [| reflexivity ].
  repeat match goal with
         | |- context [if ?b then _ else _] => destruct b
         end; reflexivity.
Qed.

Lemma step_keeps_store (c : Ctx) (op : Op) :
  database (step c op) = database c.
Proof.
  unfold database. destruct op as [u | bd tone |]; unfold System.step, discard.
  - rewrite BrandContextFacts.analyzeBrand_run.
    unfold BrandContext.analyzeBrandAPI.
    pose proof (analyzeBrand_net Backend.Database server JSON_stringify u
                  (BrandContext.net c)) as Hnet.
    destruct (Api.analyzeBrand Backend.Database server JSON_stringify u
                (BrandContext.net c)) as [[d|e] n']; cbn [fst snd] in *;
      subst n'; cbn [BrandContext.net BrandContext.st Api.world];
      apply handle_keeps_store.
  - unfold BrandContext.await_api.
    pose proof (generateCalendar_net Backend.Database server JSON_stringify bd tone
                  (BrandContext.net c)) as Hnet.
    destruct (Api.generateCalendar Backend.Database server JSON_stringify bd tone
                (BrandContext.net c)) as [o n']; cbn [fst snd] in *;
      subst n'; cbn [BrandContext.net BrandContext.st Api.world];
      apply handle_keeps_store.
  - reflexivity.
Qed.

(** C5.  Nothing the client does writes to a server-side store: after
    any sequence of analyses, calendar generations and resets the store
    is what it was, and the answer to a request never depends on it.
    The analyzed brand data is kept by the client: a fulfilled analysis
    leaves it in the [brandData] cell of the provider. *)
Theorem server_keeps_nothing (c : Ctx) (ops : list Op) :
  database (steps c ops) = database c /\
  (forall (rq : Api.Request) (db db' : Backend.Database),
      fst (server rq db) = fst (server rq db') /\ snd (server rq db) = db) /\
  (forall u : JsVal,
      match fst (analyze u c) with
      | Return data => BrandContext.brandData (BrandContext.st (step c (Analyze u))) = data
      | Throw _ =>
          BrandContext.brandData (BrandContext.st (step c (Analyze u)))
          = BrandContext.brandData (BrandContext.st c)
      end).
Proof.
  split; [| split ].
  - revert c. induction ops as [|op rest IH]; intro c; [ reflexivity |].
    unfold System.steps in *. cbn [fold_left]. rewrite IH. apply step_keeps_store.
  - intros rq db db'. split;
      [ apply handle_ignores_store | apply handle_keeps_store ].
  - intro u. unfold System.step, discard.
    rewrite BrandContextFacts.analyzeBrand_run.
    destruct (BrandContext.analyzeBrandAPI Backend.Database server JSON_stringify u
                (BrandContext.net c)) as [[d|e] n']; reflexivity.
Qed.

End Run.

End SystemFacts.

(* ================================================================== *)
(** * Further properties of the client code *)
(* ================================================================== *)

(** ** services/api.js: failures of [analyzeBrand], [generateContent],
       [checkHealth] *)

Module ApiRestFacts.

Import Api.
Import ApiSpec.
Import ApiRest.
Import ApiFacts.

Section WithNetwork.

Variable World : Type.
Variable fetch : Request -> World -> Outcome Response * World.
Variable JSON_stringify : JsVal -> string.

Abbreviation analyzeBrand := (Api.analyzeBrand World fetch JSON_stringify).
Abbreviation analyze_request := (Api.analyze_request JSON_stringify).
Abbreviation generateContent := (ApiRest.generateContent World fetch JSON_stringify).
Abbreviation content_request := (ApiRest.content_request JSON_stringify).
Abbreviation checkHealth := (ApiRest.checkHealth World fetch).

(** [analyzeBrand], case by case on the completion of [fetch]. *)
Lemma analyzeBrand_unfolded (url : JsVal) (n : Net World) :
  fst (analyzeBrand url n) =
  match fst (fetch (analyze_request url) (world n)) with
  | Throw e => Throw e
  | Return resp =>
      if ok resp then
        match json resp with
        | Throw e => Throw e
        | Return data =>
            match get_prop data "success" with
            | Throw e => Throw e
            | Return s =>
                if truthy s then get_prop data "brand_data"
                else match get_prop data "error" with
                     | Throw e => Throw e
                     | Return e =>
                         Throw (new_Error (e ||| JStr "Brand analysis failed"))
                     end
            end
        end
      else
        match get_prop (match json resp with
                        | Return d => d
                        | Throw _ => JObj []
                        end) "error" with
        | Throw e => Throw e
        | Return e => Throw (new_Error (e ||| status_message resp))
        end
  end.
Proof.
  unfold Api.analyzeBrand. unfold bind at 1.
  rewrite (js_fetch_run World fetch).
  destruct (fetch (analyze_request url) (world n)) as [[resp|e] w']; cbn [fst snd];
    [| reflexivity ].
  destruct (ok resp); cbn [negb]; run_eff.
  - destruct (json resp) as [data|e]; [| reflexivity ].
    destruct (get_prop data "success") as [s|e]; [| reflexivity ].
    destruct (truthy s); cbn [negb].
    + destruct (get_prop data "brand_data"); reflexivity.
    + destruct (get_prop data "error"); reflexivity.
  - destruct (json resp) as [data|e].
    + destruct (get_prop data "error"); reflexivity.
    + reflexivity.
Qed.

Lemma get_prop_returns (v x : JsVal) (k : string) :
  get_prop v k = Return x -> nullish v = false /\ x = get_prop_opt v k.
Proof.
  unfold get_prop_opt. intro H. rewrite H. split; [| reflexivity ].
  destruct v; try reflexivity; discriminate H.
Qed.

(** X1.  [analyzeBrand] hands brand data back only from a response that is ok
    and whose body says [success]: whenever the call returns a value, the
    request was answered with a status in 200-299, the body parsed, its
    [success] field is truthy and the value is its [brand_data] field. *)
Theorem analyzeBrand_returns_only_on_success
        (url : JsVal) (n : Net World) (v : JsVal) :
  fst (analyzeBrand url n) = Return v ->
  exists (resp : Response) (w' : World) (data : JsVal),
    fetch (analyze_request url) (world n) = (Return resp, w') /\
    (200 <= status resp <= 299)%Z /\
    json resp = Return data /\
    truthy (get_prop_opt data "success") = true /\
    v = get_prop_opt data "brand_data".
Proof.
  rewrite analyzeBrand_unfolded.
  destruct (fetch (analyze_request url) (world n)) as [[resp|e] w'] eqn:Hf;
    cbn [fst]; [| discriminate ].
  destruct (ok resp) eqn:Hok.
  - destruct (json resp) as [data|e] eqn:Hj; [| discriminate ].
    destruct (get_prop data "success") as [s|e] eqn:Hs; [| discriminate ].
    destruct (get_prop_returns _ _ _ Hs) as [Hnn ->].
    destruct (truthy (get_prop_opt data "success")) eqn:Ht.
    + intro Hv. exists resp, w', data.
      unfold ok in Hok. apply andb_true_iff in Hok. destruct Hok as [H1 H2].
      apply Z.leb_le in H1. apply Z.leb_le in H2.
      rewrite (get_prop_total _ _ Hnn) in Hv. injection Hv as <-.
      repeat split; assumption.
    + destruct (get_prop data "error"); discriminate.
  - destruct (get_prop _ "error"); discriminate.
Qed.

(** X2.  What [analyzeBrand] throws on an answered request: with a status
    outside 200-299, the [error] field of the body when truthy and
    otherwise the status text (also when the body is not JSON); with an ok
    status and a falsy [success], the [error] field when truthy and
    otherwise "Brand analysis failed". *)
Theorem analyzeBrand_failure_message
        (url : JsVal) (n : Net World) (resp : Response) (w' : World) :
  fetch (analyze_request url) (world n) = (Return resp, w') ->
  let result := fst (analyzeBrand url n) in
  (forall data : JsVal,
      json resp = Return data -> nullish data = false ->
      (ok resp = false ->
       result = Throw (new_Error (get_prop_opt data "error" ||| status_message resp))) /\
      (ok resp = true -> truthy (get_prop_opt data "success") = false ->
       result = Throw (new_Error (get_prop_opt data "error"
                                  ||| JStr "Brand analysis failed")))) /\
  (forall e : Error,
      json resp = Throw e ->
      (ok resp = false -> result = Throw (new_Error (status_message resp))) /\
      (ok resp = true -> result = Throw e)).
Proof.
  intros Hf result. subst result. rewrite analyzeBrand_unfolded, Hf. cbn [fst].
  split.
  - intros data Hj Hnn. rewrite Hj, !(get_prop_total data _ Hnn).
    split; [ intros -> | intros -> -> ]; reflexivity.
  - intros e Hj. rewrite Hj. split; intros ->; reflexivity.
Qed.

Lemma js_or_truthy (a b : JsVal) : truthy (a ||| b) = truthy a || truthy b.
Proof. unfold js_or. destruct (truthy a) eqn:H; [ exact H | reflexivity ]. Qed.

Lemma js_or_chain (p c d : JsVal) :
  p ||| c ||| d = if truthy p then p else if truthy c then c else d.
Proof.
  unfold js_or. destruct (truthy p) eqn:Hp; cbv iota.
  - now rewrite Hp.
  - destruct (truthy c); reflexivity.
Qed.

(** [generateContent], case by case on the completion of [fetch]. *)
Lemma generateContent_unfolded (brandData platforms frequency : JsVal) (n : Net World) :
  generateContent brandData platforms frequency n =
  (match fst (fetch (content_request brandData platforms frequency) (world n)) with
   | Throw e => Throw e
   | Return resp =>
       if ok resp then
         match json resp with
         | Throw e => Throw e
         | Return data =>
             match get_prop data "success" with
             | Throw e => Throw e
             | Return s =>
                 if truthy s then
                   Return (get_prop_opt data "posts"
                           ||| get_prop_opt data "calendar" ||| JArr [])
                 else match get_prop data "error" with
                      | Throw e => Throw e
                      | Return e =>
                          Throw (new_Error (e ||| JStr "Content generation failed"))
                      end
             end
         end
       else
         match get_prop (match json resp with
                         | Return d => d
                         | Throw _ => JObj []
                         end) "error" with
         | Throw e => Throw e
         | Return e => Throw (new_Error (e ||| status_message resp))
         end
   end,
   mkNet (snd (fetch (content_request brandData platforms frequency) (world n)))
         (sent n ++ [content_request brandData platforms frequency])%list).
Proof.
  unfold ApiRest.generateContent. unfold bind at 1.
  rewrite (js_fetch_run World fetch).
  destruct (fetch (content_request brandData platforms frequency) (world n))
    as [[resp|e] w']; cbn [fst snd]; [| reflexivity ].
  destruct (ok resp); cbn [negb]; run_eff.
  - destruct (json resp) as [data|e]; [| reflexivity ].
    destruct (get_prop data "success") as [s|e] eqn:Hs; [| reflexivity ].
    destruct (get_prop_returns _ _ _ Hs) as [Hnn _].
    destruct (truthy s); cbn [negb].
    + rewrite !(get_prop_total data _ Hnn), js_or_chain. unfold js_or.
      destruct (truthy (get_prop_opt data "posts")); reflexivity.
    + destruct (get_prop data "error"); reflexivity.
  - destruct (json resp) as [data|e].
    + destruct (get_prop data "error"); reflexivity.
    + reflexivity.
Qed.

(** X3.  [generateContent] posts to the endpoint of [generateCalendar], with
    the platforms and the frequency in place of the tone, and what it
    returns is never missing: the [posts] of the body when truthy, else
    its [calendar] when truthy, else an empty array. *)
Theorem generateContent_never_returns_nothing
        (brandData platforms frequency : JsVal) (n : Net World) :
  let rq := content_request brandData platforms frequency in
  sent (snd (generateContent brandData platforms frequency n)) = (sent n ++ [rq])%list /\
  req_url rq = req_url (Api.calendar_request JSON_stringify brandData JUndefined) /\
  req_method rq = "POST" /\
  req_body rq = JSON_stringify (JObj [("brand_data", brandData);
                                      ("platforms", platforms);
                                      ("frequency", frequency)]) /\
  forall v : JsVal,
    fst (generateContent brandData platforms frequency n) = Return v ->
    truthy v = true /\
    exists (resp : Response) (data : JsVal),
      fst (fetch rq (world n)) = Return resp /\
      json resp = Return data /\
      v = (if truthy (get_prop_opt data "posts") then get_prop_opt data "posts"
           else if truthy (get_prop_opt data "calendar")
                then get_prop_opt data "calendar"
                else JArr []).
Proof.
  intro rq. rewrite generateContent_unfolded. cbn [fst snd sent].
  repeat (split; [ reflexivity |]).
  intros v. fold rq.
  destruct (fst (fetch rq (world n))) as [resp|e]; [| discriminate ].
  destruct (ok resp).
  - destruct (json resp) as [data|e] eqn:Hj; [| discriminate ].
    destruct (get_prop data "success") as [s|e]; [| discriminate ].
    destruct (truthy s).
    + intro Hv. injection Hv as <-. split.
      * rewrite !js_or_truthy. cbn [truthy]. now rewrite orb_true_r.
      * exists resp, data. split; [ reflexivity |]. split; [ exact Hj |].
        apply js_or_chain.
    + destruct (get_prop data "error"); discriminate.
  - destruct (get_prop _ "error"); discriminate.
Qed.


End WithNetwork.

Lemma analyzeBrand_returns_only_on_success_witness :
  exists (resp : Response) (w' : unit) (data : JsVal),
    Sample.answering Sample.analysis_ok
      (Api.analyze_request Sample.stringify (JStr "https://acme.example"))
      (world Sample.idle) = (Return resp, w') /\
    (200 <= status resp <= 299)%Z /\
    json resp = Return data /\
    truthy (get_prop_opt data "success") = true /\
    Sample.acme = get_prop_opt data "brand_data".
Proof.
  apply (analyzeBrand_returns_only_on_success unit
           (Sample.answering Sample.analysis_ok) Sample.stringify
           (JStr "https://acme.example") Sample.idle Sample.acme).
  reflexivity.
Defined.

Lemma analyzeBrand_failure_message_witness :
  fst (Api.analyzeBrand unit (Sample.answering Sample.bad_gateway) Sample.stringify
         (JStr "https://acme.example") Sample.idle)
  = Throw (mkError "Error" "API request failed with status 502").
Proof.
  destruct (analyzeBrand_failure_message unit (Sample.answering Sample.bad_gateway)
              Sample.stringify (JStr "https://acme.example") Sample.idle
              Sample.bad_gateway tt eq_refl) as [_ H].
  destruct (H (mkError "SyntaxError" "Unexpected token < in JSON") eq_refl) as [H1 _].
  apply H1. reflexivity.
Defined.

Lemma generateContent_never_returns_nothing_witness :
  fst (ApiRest.generateContent unit (Sample.answering Sample.calendar_ok)
         Sample.stringify Sample.acme (JArr [JStr "instagram"]) (JStr "3/week")
         Sample.idle) = Return (JArr [JStr "Monday"]) /\
  truthy (JArr [JStr "Monday"]) = true.
Proof.
  destruct (generateContent_never_returns_nothing unit
              (Sample.answering Sample.calendar_ok) Sample.stringify
              Sample.acme (JArr [JStr "instagram"]) (JStr "3/week") Sample.idle)
    as (_ & _ & _ & _ & H).
  destruct (H (JArr [JStr "Monday"]) eq_refl) as [Ht _].
  split; [ reflexivity | exact Ht ].
Defined.

Example checkHealth_unhealthy_status_still_ok :
  fst (ApiRest.checkHealth unit
         (Sample.answering {| status := 500;
                              json := Return (JObj [("status", JStr "ok")]) |})
         Sample.idle) = Return true.
Proof. reflexivity. Qed.

Example checkHealth_network_down :
  fst (ApiRest.checkHealth unit
         (fun _ w => (Throw (mkError "TypeError" "Failed to fetch"), w))
         Sample.idle) = Return false.
Proof. reflexivity. Qed.

End ApiRestFacts.

(** ** context/BrandContext.jsx: the content action, the reset, and
       sequences of actions *)

Module BrandContextRestFacts.

Import BrandContext.
Import BrandContextRest.
Import ApiFacts.
Import ApiRestFacts.
Import ApiSpec.

Section WithNetwork.

Variable World : Type.
Variable fetch : Api.Request -> World -> Outcome Api.Response * World.
Variable JSON_stringify : JsVal -> string.

Abbreviation analyzeBrand := (BrandContext.analyzeBrand World fetch JSON_stringify).
Abbreviation analyzeBrandAPI := (BrandContext.analyzeBrandAPI World fetch JSON_stringify).
Abbreviation generateContent := (BrandContextRest.generateContent World fetch JSON_stringify).
Abbreviation generateContentAPI := (BrandContextRest.generateContentAPI World fetch JSON_stringify).
Abbreviation clearBrandData := (BrandContext.clearBrandData World).

Lemma generateContent_run (c : Ctx World) :
  generateContent c =
  match get_prop (contentSettings (st c)) "platforms" with
  | Throw err =>
      (Throw err,
       mkCtx (after_content World c (generatedPosts (st c))
                (JStr (err_message err) ||| JStr "Failed to generate content"))
             (net c))
  | Return platforms =>
      match generateContentAPI (brandData (st c)) platforms
              (get_prop_opt (contentSettings (st c)) "frequency") (net c) with
      | (Return posts, n') => (Return posts, mkCtx (after_content World c posts JNull) n')
      | (Throw err, n') =>
          (Throw err,
           mkCtx (after_content World c (generatedPosts (st c))
                    (JStr (err_message err) ||| JStr "Failed to generate content"))
                 n')
      end
  end.
Proof.
  unfold BrandContextRest.generateContent, current, setLoading, setError,
    setGeneratedPosts, on_state, await_api, BrandContextRest.after_content.
  run_eff. cbn [st net].
  destruct (get_prop (contentSettings (st c)) "platforms") as [platforms|err] eqn:Hp;
    [| reflexivity ].
  destruct (get_prop_returns _ _ _ Hp) as [Hnn _].
  rewrite (get_prop_total _ "frequency" Hnn).
  destruct (generateContentAPI (brandData (st c)) platforms
              (get_prop_opt (contentSettings (st c)) "frequency") (net c))
    as [[posts|err] n']; reflexivity.
Qed.

(** X5.  [generateContent] of the provider asks for content for the brand
    data and the settings it holds, and touches neither: when the API
    call fulfils, the posts are stored, [error] is null and the posts are
    returned; when it rejects, the posts stored before stay, [error]
    holds the message (or "Failed to generate content" when the message
    is empty) and the same error is thrown.  [loading] ends false, and
    [url], [brandData] and [contentSettings] are unchanged, in both
    cases. *)
Theorem generateContent_atomic (c : Ctx World) (platforms : JsVal) :
  get_prop (contentSettings (st c)) "platforms" = Return platforms ->
  let frequency := get_prop_opt (contentSettings (st c)) "frequency" in
  let c' := snd (generateContent c) in
  Api.sent (net c') =
    (Api.sent (net c)
     ++ [ApiRest.content_request JSON_stringify (brandData (st c)) platforms frequency])%list /\
  url (st c') = url (st c) /\
  brandData (st c') = brandData (st c) /\
  contentSettings (st c') = contentSettings (st c) /\
  loading (st c') = false /\
  match fst (generateContentAPI (brandData (st c)) platforms frequency (net c)) with
  | Return posts =>
      fst (generateContent c) = Return posts /\
      generatedPosts (st c') = posts /\
      error (st c') = JNull
  | Throw err =>
      fst (generateContent c) = Throw err /\
      generatedPosts (st c') = generatedPosts (st c) /\
      error (st c') = JStr (if err_message err =? "" then "Failed to generate content"
                            else err_message err)
  end.
Proof.
  intros Hp frequency c'. subst c'. rewrite generateContent_run, Hp.
  fold frequency.
  pose proof (ApiRestFacts.generateContent_unfolded World fetch JSON_stringify
                (brandData (st c)) platforms frequency (net c)) as Hnet.
  unfold BrandContextRest.generateContentAPI in *.
  destruct (ApiRest.generateContent World fetch JSON_stringify
              (brandData (st c)) platforms frequency (net c)) as [[posts|err] n'];
    injection Hnet as _ ->; cbn [fst snd st net Api.sent after_content
      url brandData contentSettings loading generatedPosts error];
    repeat split.
  unfold js_or. cbn [truthy]. destruct (err_message err =? ""); reflexivity.
Qed.

(** X6.  With [contentSettings] set to null or undefined, [generateContent]
    fails before anything is sent: the network is untouched, the
    TypeError of the property read is thrown and its message stored in
    [error], [loading] ends false and the posts stay. *)
Theorem generateContent_without_settings (c : Ctx World) :
  nullish (contentSettings (st c)) = true ->
  let c' := snd (generateContent c) in
  net c' = net c /\
  (exists err : Error,
      get_prop (contentSettings (st c)) "platforms" = Throw err /\
      err_name err = "TypeError" /\
      fst (generateContent c) = Throw err /\
      error (st c') = JStr (err_message err)) /\
  loading (st c') = false /\
  generatedPosts (st c') = generatedPosts (st c) /\
  brandData (st c') = brandData (st c).
Proof.
  intros Hnull c'. subst c'. rewrite generateContent_run.
  destruct (contentSettings (st c)) eqn:Hs; try discriminate Hnull;
    cbn [get_prop fst snd st net after_content loading generatedPosts brandData error];
    (split; [ reflexivity |]); (split; [| repeat split ]);
    eexists; repeat split.
Qed.

(** [clearBrandData] sends nothing and resets every cell but [loading]. *)
Lemma clearBrandData_run (c : Ctx World) :
  clearBrandData c =
  (Return tt,
   mkCtx {| url := JStr ""; brandData := JNull;
            contentSettings := default_settings; generatedPosts := JArr [];
            loading := loading (st c); error := JNull |} (net c)).
Proof. reflexivity. Qed.

(** X7.  Whatever the provider held and however the analysis ends, an
    analysis followed by [clearBrandData] leaves the provider exactly in
    its initial state; the reset itself sends no request. *)
Theorem analyze_then_clear_is_initial (brandUrl : JsVal) (c : Ctx World) :
  let analyzed := snd (analyzeBrand brandUrl c) in
  st (snd (clearBrandData analyzed)) = initial /\
  net (snd (clearBrandData analyzed)) = net analyzed.
Proof.
  cbv zeta. rewrite clearBrandData_run. cbn [snd st net].
  rewrite (BrandContextFacts.analyzeBrand_loading_false World fetch JSON_stringify).
  split; reflexivity.
Qed.

(** X8.  A failed analysis after a successful one does not lose the first
    result: [brandData] still holds the data of the first call, and
    [error] the message of the second. *)
Theorem failed_retry_keeps_brand
        (url1 url2 data : JsVal) (err : Error) (c : Ctx World) (n1 n2 : Api.Net World) :
  analyzeBrandAPI url1 (net c) = (Return data, n1) ->
  analyzeBrandAPI url2 n1 = (Throw err, n2) ->
  let c2 := snd (analyzeBrand url2 (snd (analyzeBrand url1 c))) in
  brandData (st c2) = data /\
  error (st c2) = JStr (if err_message err =? "" then "Failed to analyze brand"
                        else err_message err) /\
  loading (st c2) = false /\
  fst (analyzeBrand url2 (snd (analyzeBrand url1 c))) = Throw err.
Proof.
  intros H1 H2 c2. subst c2.
  rewrite (BrandContextFacts.analyzeBrand_run World fetch JSON_stringify url1 c), H1.
  cbn [snd].
  rewrite (BrandContextFacts.analyzeBrand_run World fetch JSON_stringify url2).
  cbn [net st]. rewrite H2. cbn [fst snd st brandData error loading].
  rewrite (BrandContextFacts.kept_message). repeat split.
Qed.

End WithNetwork.

Lemma generateContent_atomic_witness :
  BrandContext.loading
    (BrandContext.st
       (snd (BrandContextRest.generateContent unit
               (Sample.answering Sample.calendar_ok) Sample.stringify
               (BrandContext.mkCtx BrandContext.initial Sample.idle))))
  = false.
Proof.
  destruct (generateContent_atomic unit (Sample.answering Sample.calendar_ok)
              Sample.stringify (BrandContext.mkCtx BrandContext.initial Sample.idle)
              (JArr []) eq_refl) as (_ & _ & _ & _ & H & _).
  exact H.
Defined.

Lemma generateContent_without_settings_witness :
  BrandContext.net
    (snd (BrandContextRest.generateContent unit
            (Sample.answering Sample.calendar_ok) Sample.stringify
            (BrandContext.mkCtx
               {| url := JStr ""; brandData := Sample.acme; contentSettings := JNull;
                  generatedPosts := JArr []; loading := false; error := JNull |}
               Sample.idle)))
  = Sample.idle.
Proof.
  destruct (generateContent_without_settings unit
              (Sample.answering Sample.calendar_ok) Sample.stringify
              (BrandContext.mkCtx
                 {| url := JStr ""; brandData := Sample.acme; contentSettings := JNull;
                    generatedPosts := JArr []; loading := false; error := JNull |}
                 Sample.idle) eq_refl) as (H & _).
  exact H.
Defined.

Lemma failed_retry_keeps_brand_witness :
  BrandContext.brandData
    (BrandContext.st
       (snd (BrandContext.analyzeBrand nat AnalysisLoaderSpec.flaky Sample.stringify
               (JStr "https://other.example")
               (snd (BrandContext.analyzeBrand nat AnalysisLoaderSpec.flaky
                       Sample.stringify (JStr "https://acme.example")
                       (BrandContext.mkCtx BrandContext.initial (Api.mkNet 0%nat [])))))))
  = Sample.acme.
Proof.
  destruct (failed_retry_keeps_brand nat AnalysisLoaderSpec.flaky Sample.stringify
              (JStr "https://acme.example") (JStr "https://other.example")
              Sample.acme (mkError "Error" "API request failed with status 502")
              (BrandContext.mkCtx BrandContext.initial (Api.mkNet 0%nat []))
              (Api.mkNet 1%nat
                 [Api.analyze_request Sample.stringify (JStr "https://acme.example")])
              (Api.mkNet 2%nat
                 [Api.analyze_request Sample.stringify (JStr "https://acme.example");
                  Api.analyze_request Sample.stringify (JStr "https://other.example")])
              eq_refl eq_refl) as (H & _).
  exact H.
Defined.

End BrandContextRestFacts.

(** ** components/BrandPersona.jsx: the contrast helper on other inputs,
       the tagline, the swatches *)

Module BrandPersonaRestFacts.

Import BrandPersona.
Import BrandPersonaSpec.
Import BrandPersonaRest.
Import BrandPersonaRestSpec.
Import BrandPersonaFacts.
Import ApiSpec.

Lemma remove_first_hash_free (s : string) :
  hash_free s = true -> remove_first_hash s = s.
Proof.
  induction s as [|c s IH]; [ reflexivity |].
  cbn. destruct (c =? "#")%char; cbn; [ discriminate |].
  intro H. now rewrite IH.
Qed.

(** X9.  The leading ['#'] is optional: a non-empty string without ['#'] is
    judged as the same string with ['#'] in front. *)
Theorem isLightColor_hash_optional (s : string) :
  s <> "" -> hash_free s = true ->
  isLightColor (JStr (String "#" s)) = isLightColor (JStr s).
Proof.
  intros Hne Hfree. unfold isLightColor.
  cbn [truthy negb String.eqb remove_first_hash Ascii.eqb Bool.eqb].
  rewrite (remove_first_hash_free s Hfree).
  destruct s as [|c s]; [ congruence | reflexivity ].
Qed.

Lemma isLightColor_hash_optional_witness :
  isLightColor (JStr "#00c237") = isLightColor (JStr "00c237").
Proof.
  apply (isLightColor_hash_optional "00c237"); [ discriminate | reflexivity ].
Defined.

Lemma substring_beyond (s : string) :
  forall n m : nat, (String.length s <= n)%nat -> substring n m s = "".
Proof.
  induction s as [|c s IH]; intros [|n] [|m] H; cbn in *; try reflexivity; try lia.
  - apply IH. lia.
  - apply IH. lia.
Qed.

(** X10.  A string with fewer than five characters after its ['#'] is never
    light: the three-digit shorthand [#fff] is judged dark like any other
    short string, because its third pair is empty. *)
Theorem isLightColor_short_is_dark (s : string) :
  s <> "" -> (String.length (remove_first_hash s) <= 4)%nat ->
  isLightColor (JStr s) = Return false.
Proof.
  intros Hne Hlen. unfold isLightColor.
  assert (Ht : truthy (JStr s) = true).
  { cbn. destruct s; [ congruence | reflexivity ]. }
  rewrite Ht. cbn [negb]. unfold substr.
  rewrite (substring_beyond _ 4 2 Hlen).
  change (parseInt16 "") with (@None Z).
  destruct (parseInt16 (substring 0 2 (remove_first_hash s)));
    [ destruct (parseInt16 (substring 2 2 (remove_first_hash s))) |]; reflexivity.
Qed.

Lemma isLightColor_short_is_dark_witness :
  isLightColor (JStr "#fff") = Return false.
Proof.
  apply (isLightColor_short_is_dark "#fff"); [ discriminate | cbn; lia ].
Defined.

(** On six hexadecimal digits the answer is the brightness test on the
    three bytes. *)
Lemma isLightColor_rrggbb (r1 r2 g1 g2 b1 b2 : ascii) :
  is_hex r1 = true -> is_hex r2 = true -> is_hex g1 = true ->
  is_hex g2 = true -> is_hex b1 = true -> is_hex b2 = true ->
  isLightColor (JStr (rrggbb r1 r2 g1 g2 b1 b2)) =
  Return (above_155 (brightness (hex_byte r1 r2) (hex_byte g1 g2) (hex_byte b1 b2))).
Proof.
  intros Hr1 Hr2 Hg1 Hg2 Hb1 Hb2.
  unfold isLightColor, rrggbb. cbn [truthy negb String.eqb].
  cbn [remove_first_hash Ascii.eqb Bool.eqb].
  unfold substr. cbn [substring].
  rewrite (parseInt16_pair r1 r2 Hr1 Hr2), (parseInt16_pair g1 g2 Hg1 Hg2),
          (parseInt16_pair b1 b2 Hb1 Hb2).
  reflexivity.
Qed.

Lemma above_155_integer (r g b : Z) :
  above_155 (brightness r g b) = (155000 <? r * 299 + g * 587 + b * 114)%Z.
Proof.
  unfold above_155, brightness, Qle_bool. cbn [Qnum Qden].
  destruct (155000 <? r * 299 + g * 587 + b * 114)%Z eqn:E.
  - apply negb_true_iff. apply Z.leb_gt. apply Z.ltb_lt in E. lia.
  - apply negb_false_iff. apply Z.leb_le. apply Z.ltb_ge in E. lia.
Qed.

(** X11.  Lightness is monotone in the three channels: raising the red, green
    or blue byte of a light color keeps it light. *)
Theorem isLightColor_monotone
        (r1 r2 g1 g2 b1 b2 r1' r2' g1' g2' b1' b2' : ascii) :
  forallb is_hex [r1; r2; g1; g2; b1; b2; r1'; r2'; g1'; g2'; b1'; b2'] = true ->
  (hex_byte r1 r2 <= hex_byte r1' r2')%Z ->
  (hex_byte g1 g2 <= hex_byte g1' g2')%Z ->
  (hex_byte b1 b2 <= hex_byte b1' b2')%Z ->
  isLightColor (JStr (rrggbb r1 r2 g1 g2 b1 b2)) = Return true ->
  isLightColor (JStr (rrggbb r1' r2' g1' g2' b1' b2')) = Return true.
Proof.
  intros Hhex Hr Hg Hb.
  cbn [forallb] in Hhex.
  repeat (apply andb_true_iff in Hhex; destruct Hhex as [?H Hhex]).
  rewrite !isLightColor_rrggbb by assumption.
  rewrite !above_155_integer.
  intro Hl. injection Hl as Hl. apply Z.ltb_lt in Hl.
  f_equal. apply Z.ltb_lt. lia.
Qed.

Lemma isLightColor_monotone_witness :
  isLightColor (JStr "#f9f9f9") = Return true.
Proof.
  apply (isLightColor_monotone "c" "0" "c" "0" "c" "0" "f" "9" "f" "9" "f" "9")%char;
    try reflexivity; vm_compute; discriminate.
Defined.

Lemma upper_hex_checked :
  forallb (fun c => is_hex (AnalysisLoaderLegacy.upper_char c)
                    && (digit_value (AnalysisLoaderLegacy.upper_char c)
                        =? digit_value c)%Z) hex_chars = true.
Proof. vm_compute. reflexivity. Qed.

Lemma upper_hex (c : ascii) :
  is_hex c = true ->
  is_hex (AnalysisLoaderLegacy.upper_char c) = true /\
  digit_value (AnalysisLoaderLegacy.upper_char c) = digit_value c.
Proof.
  intro H. apply is_hex_enumerated in H.
  pose proof upper_hex_checked as Hall. rewrite forallb_forall in Hall.
  specialize (Hall c H). apply andb_true_iff in Hall. destruct Hall as [H1 H2].
  apply Z.eqb_eq in H2. split; assumption.
Qed.

(** X12.  The case of the digits does not matter: [#FFAA00] and [#ffaa00] are
    judged alike. *)
Theorem isLightColor_case_insensitive (r1 r2 g1 g2 b1 b2 : ascii) :
  forallb is_hex [r1; r2; g1; g2; b1; b2] = true ->
  let up := AnalysisLoaderLegacy.upper_char in
  isLightColor (JStr (rrggbb (up r1) (up r2) (up g1) (up g2) (up b1) (up b2)))
  = isLightColor (JStr (rrggbb r1 r2 g1 g2 b1 b2)).
Proof.
  intros Hhex up. cbn [forallb] in Hhex.
  repeat (apply andb_true_iff in Hhex; destruct Hhex as [?H Hhex]).
  destruct (upper_hex r1 ltac:(assumption)) as [? Er1].
  destruct (upper_hex r2 ltac:(assumption)) as [? Er2].
  destruct (upper_hex g1 ltac:(assumption)) as [? Eg1].
  destruct (upper_hex g2 ltac:(assumption)) as [? Eg2].
  destruct (upper_hex b1 ltac:(assumption)) as [? Eb1].
  destruct (upper_hex b2 ltac:(assumption)) as [? Eb2].
  subst up.
  rewrite !isLightColor_rrggbb by assumption.
  unfold hex_byte. rewrite Er1, Er2, Eg1, Eg2, Eb1, Eb2. reflexivity.
Qed.

Lemma isLightColor_case_insensitive_witness :
  isLightColor (JStr "#FFAA00") = isLightColor (JStr "#ffaa00").
Proof.
  apply (isLightColor_case_insensitive "f" "f" "a" "a" "0" "0")%char. reflexivity.
Defined.

(** [isLightColor] throws on nothing but a truthy value that is not a
    string. *)
Lemma isLightColor_throws_iff (v : JsVal) :
  is_throw (isLightColor v) = true <->
  truthy v = true /\ (forall s, v <> JStr s).
Proof.
  unfold isLightColor. split.
  - intro H. destruct (truthy v) eqn:Ht; cbn [negb] in H; [| discriminate H ].
    split; [ reflexivity |]. intros s ->.
    destruct (parseInt16 _); [ destruct (parseInt16 _);
      [ destruct (parseInt16 _) |] |]; discriminate H.
  - intros [Ht Hs]. rewrite Ht. cbn [negb].
    destruct v; try reflexivity. exfalso. exact (Hs _ eq_refl).
Qed.

Lemma In_firstn {A} (n : nat) (l : list A) (x : A) :
  In x (firstn n l) -> In x l.
Proof.
  revert l. induction n as [|n IH]; intros [|y l]; cbn; try tauto.
  intros [H | H]; [ now left | right; now apply IH ].
Qed.

Lemma first_component_entry (c : JsVal) :
  color_entry c -> exists s, first_component c = JStr s.
Proof.
  destruct c as [| | | |s|[|[] l]|]; cbn; intro H; try contradiction;
    eexists; reflexivity.
Qed.

(** X13.  When every color of the brand is a hex string or a tuple that starts
    with one, every swatch of the palette gets its text color, "#333" or
    "#fff": rendering the palette never throws. *)
Theorem swatches_never_throw (brandData : JsVal) (items shown : list JsVal) :
  colors brandData = JArr items ->
  Forall color_entry items ->
  displayColors brandData = Return shown ->
  Forall (fun color =>
            swatchTextColor color = Return "#333" \/
            swatchTextColor color = Return "#fff") shown.
Proof.
  intros Hc Hall. unfold displayColors, processedColors. rewrite Hc.
  assert (Hstr : forall c, In c (map first_component (firstn 5 items)) ->
                           exists s, c = JStr s).
  { intros c Hin. apply in_map_iff in Hin. destruct Hin as (x & <- & Hx).
    apply first_component_entry. rewrite Forall_forall in Hall.
    apply Hall. eapply In_firstn; eassumption. }
  revert Hstr. generalize (map first_component (firstn 5 items)).
  intros processed Hstr H. injection H as <-.
  assert (Hswatch : forall s, swatchTextColor (JStr s) = Return "#333" \/
                              swatchTextColor (JStr s) = Return "#fff").
  { intro s. unfold swatchTextColor.
    destruct (isLightColor (JStr s)) as [[|]|e] eqn:E; [ now left | now right |].
    exfalso.
    assert (Ht : is_throw (isLightColor (JStr s)) = true) by now rewrite E.
    apply isLightColor_throws_iff in Ht. destruct Ht as [_ Ht].
    exact (Ht s eq_refl). }
  destruct processed as [|c cs]; cbn [List.length Nat.ltb Nat.leb].
  - repeat constructor; apply Hswatch.
  - apply Forall_forall. intros x Hx.
    destruct (Hstr x Hx) as [s ->]. apply Hswatch.
Qed.

Lemma swatches_never_throw_witness :
  Forall (fun color =>
            swatchTextColor color = Return "#333" \/
            swatchTextColor color = Return "#fff")
         [JStr "#ff0000"; JStr "#f9f9f9"].
Proof.
  apply (swatches_never_throw
           (JObj [("colors", JArr [JArr [JStr "#ff0000"; JStr "Red"]; JStr "#f9f9f9"])])
           [JArr [JStr "#ff0000"; JStr "Red"]; JStr "#f9f9f9"]).
  - reflexivity.
  - repeat constructor.
  - reflexivity.
Defined.

(** X14.  The tagline shown is never empty when the description of the
    brand is a string or is missing: it is the [tagline] of the brand
    when truthy; otherwise what [slice(0, 100)] gives on the description
    when that is not empty; otherwise, and always when the description is
    missing, "Modern & Professional". *)
Theorem tagline_never_empty
        (String_slice : nat -> nat -> string -> string) (brandData : JsVal) :
  let own := get_prop_opt brandData "tagline" in
  let description := get_prop_opt brandData "description" in
  (nullish description = true \/ exists d, description = JStr d) ->
  exists shown : JsVal,
    tagline String_slice brandData = Return shown /\
    truthy shown = true /\
    (truthy own = true -> shown = own) /\
    (truthy own = false ->
     (nullish description = true -> shown = JStr "Modern & Professional") /\
     (forall d, description = JStr d ->
        (String_slice 0%nat 100%nat d <> "" -> shown = JStr (String_slice 0%nat 100%nat d)) /\
        (String_slice 0%nat 100%nat d = "" -> shown = JStr "Modern & Professional"))).
Proof.
  intros own description Hd. unfold tagline. fold own description.
  destruct (truthy own) eqn:Ht.
  - exists own. repeat split; try assumption; discriminate.
  - destruct Hd as [Hn | [d Hd]].
    + exists (JStr "Modern & Professional").
      split; [ destruct description; try discriminate Hn; reflexivity |].
      split; [ reflexivity |]. split; [ discriminate |].
      intros _. split; [ reflexivity |].
      intros d Hd. rewrite Hd in Hn. discriminate Hn.
    + rewrite Hd. cbn [slice_0_100]. unfold js_or. cbn [truthy].
      destruct (String_slice 0%nat 100%nat d =? "") eqn:E; cbn [negb].
      * apply String.eqb_eq in E.
        exists (JStr "Modern & Professional").
        split; [ reflexivity |]. split; [ reflexivity |]. split; [ discriminate |].
        intros _. split; [ intro Hn; discriminate Hn |].
        intros d' Hd'. injection Hd' as <-. split; [ congruence | reflexivity ].
      * apply String.eqb_neq in E.
        exists (JStr (String_slice 0%nat 100%nat d)).
        split; [ reflexivity |].
        split; [ cbn; apply negb_true_iff; now apply String.eqb_neq |].
        split; [ discriminate |].
        intros _. split; [ intro Hn; discriminate Hn |].
        intros d' Hd'. injection Hd' as <-. split; [ reflexivity | congruence ].
Qed.

Lemma tagline_never_empty_witness :
  tagline SamplePage.slice (JObj [("description", JStr "Rockets for everyone")])
  = Return (JStr "Rockets for everyone") /\
  tagline SamplePage.slice (JObj [("name", JStr "Acme")])
  = Return (JStr "Modern & Professional").
Proof.
  split.
  - destruct (tagline_never_empty SamplePage.slice
                (JObj [("description", JStr "Rockets for everyone")]))
      as (shown & Hret & _ & _ & H).
    + right. eexists. reflexivity.
    + rewrite Hret. f_equal.
      destruct (H eq_refl) as [_ Hd].
      destruct (Hd "Rockets for everyone" eq_refl) as [Hs _].
      apply Hs. discriminate.
  - destruct (tagline_never_empty SamplePage.slice (JObj [("name", JStr "Acme")]))
      as (shown & Hret & _ & _ & H).
    + left. reflexivity.
    + rewrite Hret. f_equal.
      destruct (H eq_refl) as [Hn _]. apply Hn. reflexivity.
Defined.

End BrandPersonaRestFacts.

(** ** app/static/js/main.js *)

Module MainJsFacts.

Import MainJs.
Import MainJsSpec.
Import ApiFacts.

Example parseColors_example :
  parseColors (units " #ff0000, #00ff00 ,,  , #0000ff,#111,#222,#333") =
  map units ["#ff0000"; "#00ff00"; "#0000ff"; "#111"; "#222"].
Proof. reflexivity. Qed.

Example parseColors_empty : parseColors [] = [].
Proof. reflexivity. Qed.

(** A no-break space and an ideographic space around the color are
    stripped like any other white space. *)
Example parseColors_unicode_space :
  parseColors ([160] ++ units "#fff" ++ [12288])%N%list = [units "#fff"].
Proof. reflexivity. Qed.

Lemma is_white_space_spec (u : N) :
  is_white_space u = true <-> In u white_space_units.
Proof.
  unfold is_white_space, white_space_units. cbn [In].
  rewrite !orb_true_iff, !andb_true_iff, !N.leb_le, !N.eqb_eq.
  lia.
Qed.

Lemma trim_start_head (s : JsString) (u : N) (rest : JsString) :
  trim_start s = u :: rest -> is_white_space u = false.
Proof.
  induction s as [|v s IH]; cbn; [ discriminate |].
  destruct (is_white_space v) eqn:E; [ exact IH |].
  intro H. injection H as <- _. exact E.
Qed.

Lemma trim_end_last (s init : JsString) (u : N) :
  trim_end s = (init ++ [u])%list -> is_white_space u = false.
Proof.
  revert init. induction s as [|v s IH]; intros init; cbn.
  - destruct init; discriminate.
  - destruct (trim_end s) as [|k kept] eqn:E.
    + destruct (is_white_space v) eqn:Ev.
      * destruct init; discriminate.
      * destruct init as [|i init]; cbn; intro H.
        -- injection H as H1. now subst.
        -- destruct init; discriminate H.
    + destruct init as [|i init]; cbn; intro H.
      * discriminate H.
      * injection H as H1 H2. apply (IH init). exact H2.
Qed.

Lemma trim_end_head (u : N) (rest : JsString) :
  is_white_space u = false -> exists kept, trim_end (u :: rest) = u :: kept.
Proof.
  intro H. cbn. destruct (trim_end rest); rewrite ?H; eexists; reflexivity.
Qed.

Lemma trim_head (s : JsString) (u : N) (rest : JsString) :
  trim s = u :: rest -> is_white_space u = false.
Proof.
  unfold trim. destruct (trim_start s) as [|v r] eqn:E; [ discriminate |].
  pose proof (trim_start_head s v r E) as Hv.
  destruct (trim_end_head v r Hv) as [kept ->].
  intro H. injection H as <- _. exact Hv.
Qed.

Lemma trim_start_In (s : JsString) (x : N) : In x (trim_start s) -> In x s.
Proof.
  induction s as [|v s IH]; cbn; [ tauto |].
  destruct (is_white_space v); [ intro H; right; now apply IH | tauto ].
Qed.

Lemma trim_end_In (s : JsString) (x : N) : In x (trim_end s) -> In x s.
Proof.
  induction s as [|v s IH]; cbn; [ tauto |].
  destruct (trim_end s) as [|k kept].
  - destruct (is_white_space v); cbn; tauto.
  - intros [H | H]; [ now left | right; now apply IH ].
Qed.

Lemma split_commas_no_comma (s piece : JsString) :
  In piece (split_commas s) -> ~ In COMMA piece.
Proof.
  revert piece. induction s as [|u s IH]; intros piece; cbn.
  - intros [<- | []]. tauto.
  - destruct (u =? COMMA)%N eqn:E.
    + intros [<- | H]; [ cbn; tauto | now apply IH ].
    + apply N.eqb_neq in E.
      destruct (split_commas s) as [|p ps].
      * intros [<- | []]. cbn. intros [H | []]. congruence.
      * intros [<- | H].
        -- intros [H | H]; [ congruence |]. exact (IH p (or_introl eq_refl) H).
        -- apply IH. now right.
Qed.

Lemma trim_start_idem (s : JsString) : trim_start (trim_start s) = trim_start s.
Proof.
  induction s as [|u s IH]; cbn; [ reflexivity |].
  destruct (is_white_space u) eqn:E; [ exact IH |]. cbn. now rewrite E.
Qed.

Lemma trim_end_idem (s : JsString) : trim_end (trim_end s) = trim_end s.
Proof.
  induction s as [|u s IH]; cbn; [ reflexivity |].
  destruct (trim_end s) as [|k kept] eqn:E.
  - destruct (is_white_space u) eqn:Eu; cbn; [ reflexivity | now rewrite Eu ].
  - cbn [trim_end] in *. now rewrite IH.
Qed.

(** Trimming the end keeps a first code unit that is not white space. *)
Lemma trim_start_trim_end (s : JsString) :
  trim_start s = s -> trim_start (trim_end s) = trim_end s.
Proof.
  destruct s as [|u s]; [ reflexivity |].
  intro H.
  assert (Hu : is_white_space u = false) by exact (trim_start_head _ _ _ H).
  destruct (trim_end_head u s Hu) as [kept ->]. cbn. now rewrite Hu.
Qed.

Lemma trim_idem (s : JsString) : trim (trim s) = trim s.
Proof.
  unfold trim.
  rewrite (trim_start_trim_end (trim_start s) (trim_start_idem s)).
  apply trim_end_idem.
Qed.

Lemma trim_clean (piece : JsString) :
  ~ In COMMA piece -> trim piece <> [] -> clean_color (trim piece).
Proof.
  intros Hc Hne. repeat split.
  - exact Hne.
  - intros u rest E Hin. apply is_white_space_spec in Hin.
    rewrite (trim_head _ _ _ E) in Hin. discriminate Hin.
  - intros init u E Hin. apply is_white_space_spec in Hin.
    unfold trim in E. rewrite (trim_end_last _ _ _ E) in Hin. discriminate Hin.
  - intro Hin. apply Hc. unfold trim in Hin.
    now apply trim_start_In, trim_end_In.
Qed.

Lemma parseColors_In (colorString x : JsString) :
  In x (parseColors colorString) ->
  clean_color x /\ trim x = x.
Proof.
  unfold parseColors. intro H.
  apply BrandPersonaRestFacts.In_firstn in H.
  apply filter_In in H. destruct H as [H Hne].
  apply in_map_iff in H. destruct H as (piece & <- & Hp).
  split; [| apply trim_idem ].
  apply trim_clean.
  - now apply (split_commas_no_comma colorString).
  - intro E. rewrite E in Hne. discriminate Hne.
Qed.

Lemma parseColors_length (colorString : JsString) :
  (List.length (parseColors colorString) <= 5)%nat.
Proof. unfold parseColors. apply firstn_le_length. Qed.

(** X15.  [parseColors] returns at most five colors; none of them is
    empty, none begins or ends with a white-space or line-terminator code
    unit, and none contains a comma. *)
Theorem parseColors_clean (colorString : JsString) :
  (List.length (parseColors colorString) <= 5)%nat /\
  Forall clean_color (parseColors colorString).
Proof.
  split; [ apply parseColors_length |].
  apply Forall_forall. intros x Hx. now apply (parseColors_In colorString).
Qed.

Lemma split_commas_single (x : JsString) :
  ~ In COMMA x -> split_commas x = [x].
Proof.
  induction x as [|u x IH]; cbn; [ reflexivity |].
  intro H. destruct (u =? COMMA)%N eqn:E.
  - apply N.eqb_eq in E. exfalso. apply H. now left.
  - rewrite IH; [ reflexivity | tauto ].
Qed.

Lemma split_commas_app (x rest : JsString) :
  ~ In COMMA x ->
  split_commas (x ++ COMMA :: rest)%list = x :: split_commas rest.
Proof.
  induction x as [|u x IH]; cbn; [ reflexivity |].
  intro H. destruct (u =? COMMA)%N eqn:E.
  - apply N.eqb_eq in E. exfalso. apply H. now left.
  - rewrite IH; [ reflexivity | tauto ].
Qed.

Lemma split_commas_join (colors : list JsString) :
  colors <> [] ->
  Forall (fun c => ~ In COMMA c) colors ->
  split_commas (join_commas colors) = colors.
Proof.
  induction colors as [|x xs IH]; [ congruence |].
  intros _ Hall. inversion Hall as [|? ? Hx Hxs]; subst.
  destruct xs as [|y ys].
  - cbn. now apply split_commas_single.
  - cbn [join_commas]. change 44%N with COMMA.
    rewrite (split_commas_app _ _ Hx). f_equal.
    apply IH; [ discriminate | exact Hxs ].
Qed.

Lemma map_trim_fixed (colors : list JsString) :
  Forall (fun c => trim c = c) colors -> map trim colors = colors.
Proof.
  induction 1 as [|x xs Hx _ IH]; cbn; [ reflexivity |]. now rewrite Hx, IH.
Qed.

Lemma filter_nonempty_fixed (colors : list JsString) :
  Forall (fun c => c <> []) colors -> filter nonempty colors = colors.
Proof.
  induction 1 as [|x xs Hx _ IH]; cbn; [ reflexivity |].
  destruct x; [ congruence |]. cbn. now rewrite IH.
Qed.

(** X16.  Parsing is stable: the colors it returns, joined with commas
    and parsed again, come back unchanged. *)
Theorem parseColors_round_trip (colorString : JsString) :
  parseColors (join_commas (parseColors colorString))
  = parseColors colorString.
Proof.
  pose proof (parseColors_length colorString) as Hlen.
  assert (Hall : forall x, In x (parseColors colorString) ->
                           clean_color x /\ trim x = x)
    by (intros x; apply parseColors_In).
  remember (parseColors colorString) as colors eqn:E. clear E.
  destruct colors as [|x xs]; [ reflexivity |].
  unfold parseColors.
  rewrite split_commas_join.
  - rewrite map_trim_fixed, filter_nonempty_fixed.
    + apply firstn_all2. exact Hlen.
    + apply Forall_forall. intros c Hc. now destruct (Hall c Hc) as [(Hne & _) _].
    + apply Forall_forall. intros c Hc. now destruct (Hall c Hc) as [_ Ht].
  - discriminate.
  - apply Forall_forall. intros c Hc.
    now destruct (Hall c Hc) as [(_ & _ & _ & Hcomma) _].
Qed.

(** Splits a run of the page script on the completions it depends on,
    in the order in which the script reaches them. *)
Ltac page_simpl :=
  cbn [fst snd negb MainJs.brandData MainJs.calendarData MainJs.websiteUrl_value
       MainJs.contentTone_value MainJs.hidden MainJs.textContent MainJs.dom
       MainJs.net Api.sent Api.world].

Ltac page_step :=
  match goal with
  | |- context [fst (?f ?rq ?w)] =>
      is_var f; destruct (f rq w) as [[?resp|?e] ?w'] eqn:?Hfetch
  | |- context [Api.json ?r] => destruct (Api.json r) as [?data|?e] eqn:?Hjson
  | |- context [Api.ok ?r] => destruct (Api.ok r) eqn:?Hok
  | |- context [match ?v with
                | JUndefined => _ | JNull => _ | JBool _ => _ | JNum _ => _
                | JStr _ => _ | JArr _ => _ | JObj _ => _
                end] => is_var v; destruct v; cbn [get_prop]
  | |- context [get_prop ?v ?k] => destruct (get_prop v k) as [?x|?e] eqn:?Hget
  | |- context [?render ?v ?d] =>
      is_var render;
      match type of (render v d) with
      | (Outcome unit * _)%type => destruct (render v d) as [[[]|?e] ?d'] eqn:?Hrender
      end
  end; page_simpl.

Ltac page_cases := repeat page_step.

Ltac page_unfold :=
  unfold MainJs.analyzeBrand, MainJs.generateCalendar, MainJs.onAnalyzeUrlClick,
    MainJs.displayBrandProfile, MainJs.displayCalendar, MainJs.showError,
    MainJs.showElement, MainJs.hideElement, MainJs.set_hidden,
    MainJs.set_brandData, MainJs.set_calendarData, MainJs.in_dom,
    MainJs.page_fetch, BrandContextRest.current;
  unfold bind, try_catch, lift_outcome, ret, throw, Js.modify;
  cbn [fst snd MainJs.brandData MainJs.calendarData MainJs.websiteUrl_value
       MainJs.contentTone_value MainJs.hidden MainJs.textContent MainJs.dom
       MainJs.net].

Section Page.

Variable Dom : Type.
Variable World : Type.
Variable fetch : Api.Request -> World -> Outcome Api.Response * World.
Variable JSON_stringify : JsVal -> string.
Variable String_trim : string -> string.
Variable render_profile : JsVal -> Eff Dom unit.
Variable clear_calendar : Dom -> Dom.
Variable render_calendar : list JsVal -> Eff Dom unit.
Variable navigateToSection : string -> Eff Dom unit.

Abbreviation Page := (MainJs.Page Dom World).
Abbreviation analyzeBrand :=
  (MainJs.analyzeBrand Dom World fetch JSON_stringify render_profile navigateToSection).
Abbreviation analyze_request := (MainJs.analyze_request JSON_stringify).
Abbreviation generateCalendar :=
  (MainJs.generateCalendar Dom World fetch JSON_stringify clear_calendar
     render_calendar navigateToSection).
Abbreviation onAnalyzeUrlClick :=
  (MainJs.onAnalyzeUrlClick Dom World fetch JSON_stringify String_trim
     render_profile navigateToSection).

Lemma page_analyzeBrand_sent
      (source : JsVal) (data : list (string * JsVal)) (p : Page) :
  fst (analyzeBrand source data p) = Return tt /\
  Api.sent (net _ _ (snd (analyzeBrand source data p))) =
    (Api.sent (net _ _ p) ++ [analyze_request source data])%list.
Proof.
  page_unfold. rewrite (js_fetch_run World fetch). cbn [fst snd].
  page_cases; repeat split.
Qed.


(** X18.  When the analysis fails before any data is read (the network is
    down, the body is not JSON, or the status is outside 200-299), the
    brand data of the page and the rest of the document are untouched and
    the error banner is shown with the message: the one of the rejection,
    the one of the parser (whatever the status), or the [error] field of
    the body and, failing that, "Failed to analyze brand". *)
Theorem page_analyzeBrand_failure
        (source : JsVal) (data : list (string * JsVal)) (p : Page) (msg : string) :
  let answer := fst (fetch (analyze_request source data) (Api.world (net _ _ p))) in
  ((exists err, answer = Throw err /\ msg = err_message err) \/
   (exists resp err,
       answer = Return resp /\ Api.json resp = Throw err /\ msg = err_message err) \/
   (exists resp body,
       answer = Return resp /\ Api.json resp = Return body /\
       ApiSpec.nullish body = false /\ Api.ok resp = false /\
       msg = err_message (new_Error (get_prop_opt body "error"
                                     ||| JStr "Failed to analyze brand")))) ->
  let p' := snd (analyzeBrand source data p) in
  brandData _ _ p' = brandData _ _ p /\
  dom _ _ p' = dom _ _ p /\
  hidden _ _ p' brandError = false /\
  textContent _ _ p' brandError = msg /\
  hidden _ _ p' brandProfile = hidden _ _ p brandProfile.
Proof.
  cbv zeta. intros H. page_unfold. rewrite (js_fetch_run World fetch). cbn [fst snd].
  destruct H as [(err & Ha & ->) | [(resp & err & Ha & Hj & ->)
                                   | (resp & body & Ha & Hj & Hnn & Hok & ->)]];
    rewrite Ha; page_simpl; try rewrite Hj; page_simpl; try rewrite Hok; page_simpl;
    try rewrite (get_prop_total body "error" Hnn); page_simpl;
    repeat split.
Qed.

(** X19.  An answer with a status in 200-299 and a JSON body always replaces
    the brand data of the page by the [brand_data] field of the body,
    whether or not the body says [success] and whether or not the profile
    can then be rendered.  When that field is missing, the page is left
    with no brand data, the profile shown and the banner showing the
    TypeError of the first property read. *)
Theorem page_analyzeBrand_takes_any_ok_body
        (source : JsVal) (data : list (string * JsVal)) (p : Page)
        (resp : Api.Response) (w' : World) (body : JsVal) :
  fetch (analyze_request source data) (Api.world (net _ _ p)) = (Return resp, w') ->
  Api.ok resp = true ->
  Api.json resp = Return body ->
  ApiSpec.nullish body = false ->
  let p' := snd (analyzeBrand source data p) in
  brandData _ _ p' = get_prop_opt body "brand_data" /\
  (ApiSpec.nullish (get_prop_opt body "brand_data") = true ->
   exists err,
     get_prop (get_prop_opt body "brand_data") "name" = Throw err /\
     textContent _ _ p' brandError = err_message err /\
     hidden _ _ p' brandError = false /\
     hidden _ _ p' brandProfile = false /\
     dom _ _ p' = dom _ _ p).
Proof.
  cbv zeta. intros Hf Hok Hj Hnn. page_unfold.
  rewrite (js_fetch_run World fetch), Hf. page_simpl. rewrite Hj. page_simpl.
  rewrite Hok. page_simpl.
  rewrite (get_prop_total body "brand_data" Hnn). page_simpl.
  split.
  - page_cases; reflexivity.
  - intro Hb.
    destruct (get_prop_opt body "brand_data") eqn:Eb; try discriminate Hb;
      cbn [get_prop]; page_simpl; eexists; repeat split.
Qed.

(** X20.  Without brand data on the page, [generateCalendar] asks the server
    nothing: the network, the calendar and the document are untouched,
    and the calendar error says "Please analyze a brand first". *)
Theorem page_generateCalendar_needs_brand (p : Page) :
  truthy (brandData _ _ p) = false ->
  let p' := snd (generateCalendar p) in
  fst (generateCalendar p) = Return tt /\
  net _ _ p' = net _ _ p /\
  calendarData _ _ p' = calendarData _ _ p /\
  dom _ _ p' = dom _ _ p /\
  hidden _ _ p' calendarError = false /\
  textContent _ _ p' calendarError = "Please analyze a brand first".
Proof.
  cbv zeta. intro H. page_unfold. rewrite H. page_simpl. repeat split.
Qed.


(** X22.  When the calendar request fails before any calendar is read (the
    network is down, the body is not JSON, or the status is outside
    200-299), the calendar of the page is the one it had, the calendar
    container stays hidden, and the calendar error is shown with the
    message of the failure. *)
Theorem page_generateCalendar_failure (p : Page) (msg : string) :
  truthy (brandData _ _ p) = true ->
  let rq := MainJs.calendar_request JSON_stringify (brandData _ _ p)
              (contentTone_value _ _ p) in
  let answer := fst (fetch rq (Api.world (net _ _ p))) in
  ((exists err, answer = Throw err /\ msg = err_message err) \/
   (exists resp err,
       answer = Return resp /\ Api.json resp = Throw err /\ msg = err_message err) \/
   (exists resp body,
       answer = Return resp /\ Api.json resp = Return body /\
       ApiSpec.nullish body = false /\ Api.ok resp = false /\
       msg = err_message (new_Error (get_prop_opt body "error"
                                     ||| JStr "Failed to generate calendar")))) ->
  let p' := snd (generateCalendar p) in
  calendarData _ _ p' = calendarData _ _ p /\
  dom _ _ p' = dom _ _ p /\
  hidden _ _ p' calendarContainer = true /\
  hidden _ _ p' calendarError = false /\
  textContent _ _ p' calendarError = msg.
Proof.
  cbv zeta. intros Hb H. page_unfold. rewrite Hb. page_simpl.
  rewrite (js_fetch_run World fetch). cbn [fst snd].
  destruct H as [(err & Ha & ->) | [(resp & err & Ha & Hj & ->)
                                   | (resp & body & Ha & Hj & Hnn & Hok & ->)]];
    rewrite Ha; page_simpl; try rewrite Hj; page_simpl; try rewrite Hok; page_simpl;
    try rewrite (get_prop_total body "error" Hnn); page_simpl;
    repeat split.
Qed.

Lemma click_run (p : Page) :
  onAnalyzeUrlClick p =
  if String_trim (websiteUrl_value _ _ p) =? ""
  then MainJs.showError Dom World brandError "Please enter a valid URL" p
  else analyzeBrand (JStr "url") [("url", JStr (String_trim (websiteUrl_value _ _ p)))] p.
Proof.
  unfold MainJs.onAnalyzeUrlClick, BrandContextRest.current.
  unfold bind at 1. cbn [fst snd truthy].
  destruct (String_trim (websiteUrl_value Dom World p) =? ""); reflexivity.
Qed.

(** X23.  The analyze button always completes.  When the value of the
    URL field trims to the empty string it sends nothing, leaves the
    brand data alone and shows "Please enter a valid URL"; otherwise it
    sends one POST to [/brand/analyze] whose payload is the source "url"
    and the trimmed value. *)
Theorem page_click_sends_trimmed_url (p : Page) :
  let p' := snd (onAnalyzeUrlClick p) in
  let url := String_trim (websiteUrl_value _ _ p) in
  let rq := MainJs.post JSON_stringify "/brand/analyze"
              (JObj [("source", JStr "url"); ("url", JStr url)]) in
  fst (onAnalyzeUrlClick p) = Return tt /\
  Api.req_url rq = "/brand/analyze" /\
  Api.req_method rq = "POST" /\
  Api.req_body rq = JSON_stringify (JObj [("source", JStr "url"); ("url", JStr url)]) /\
  (url = "" ->
   net _ _ p' = net _ _ p /\
   brandData _ _ p' = brandData _ _ p /\
   hidden _ _ p' brandError = false /\
   textContent _ _ p' brandError = "Please enter a valid URL") /\
  (url <> "" ->
   Api.sent (net _ _ p') = (Api.sent (net _ _ p) ++ [rq])%list).
Proof.
  cbv zeta. rewrite click_run.
  destruct (String_trim (websiteUrl_value Dom World p) =? "") eqn:E.
  - apply String.eqb_eq in E. split; [ reflexivity |].
    repeat (split; [ reflexivity |]). split.
    + intros _. page_unfold. repeat split.
    + intro Hne. contradiction.
  - apply String.eqb_neq in E.
    destruct (page_analyzeBrand_sent (JStr "url")
                [("url", JStr (String_trim (websiteUrl_value Dom World p)))] p)
      as (Hr & Hsent).
    split; [ exact Hr |]. repeat (split; [ reflexivity |]).
    split; [ intro H; contradiction |].
    intros _. exact Hsent.
Qed.

End Page.

Lemma page_analyzeBrand_failure_witness :
  textContent _ _
    (snd (MainJs.analyzeBrand unit unit (Sample.answering Sample.bad_gateway)
            Sample.stringify SamplePage.render_profile SamplePage.navigateToSection
            (JStr "url") [("url", JStr "https://acme.example")]
            (SamplePage.loaded "https://acme.example" JNull)))
    brandError
  = "Unexpected token < in JSON".
Proof.
  destruct (page_analyzeBrand_failure unit unit (Sample.answering Sample.bad_gateway)
              Sample.stringify SamplePage.render_profile SamplePage.navigateToSection
              (JStr "url") [("url", JStr "https://acme.example")]
              (SamplePage.loaded "https://acme.example" JNull)
              "Unexpected token < in JSON") as (_ & _ & _ & H & _).
  - right. left. exists Sample.bad_gateway. eexists. repeat split.
  - exact H.
Defined.

Lemma page_analyzeBrand_takes_any_ok_body_witness :
  brandData _ _
    (snd (MainJs.analyzeBrand unit unit (Sample.answering SamplePage.ok_but_failed)
            Sample.stringify SamplePage.render_profile SamplePage.navigateToSection
            (JStr "url") [("url", JStr "https://acme.example")]
            (SamplePage.loaded "https://acme.example" Sample.acme)))
  = JUndefined.
Proof.
  destruct (page_analyzeBrand_takes_any_ok_body unit unit
              (Sample.answering SamplePage.ok_but_failed)
              Sample.stringify SamplePage.render_profile SamplePage.navigateToSection
              (JStr "url") [("url", JStr "https://acme.example")]
              (SamplePage.loaded "https://acme.example" Sample.acme)
              SamplePage.ok_but_failed tt
              (JObj [("success", JBool false);
                     ("error", JStr "Could not reach the site")])
              eq_refl eq_refl eq_refl eq_refl) as [H _].
  exact H.
Defined.

Lemma page_generateCalendar_needs_brand_witness :
  net _ _
    (snd (MainJs.generateCalendar unit unit (Sample.answering Sample.calendar_ok)
            Sample.stringify SamplePage.clear_calendar SamplePage.render_calendar
            SamplePage.navigateToSection (SamplePage.loaded "" JNull)))
  = Sample.idle.
Proof.
  destruct (page_generateCalendar_needs_brand unit unit
              (Sample.answering Sample.calendar_ok)
              Sample.stringify SamplePage.clear_calendar SamplePage.render_calendar
              SamplePage.navigateToSection (SamplePage.loaded "" JNull) eq_refl)
    as (_ & H & _).
  exact H.
Defined.


Lemma page_generateCalendar_failure_witness :
  hidden _ _
    (snd (MainJs.generateCalendar unit unit (Sample.answering Sample.bad_gateway)
            Sample.stringify SamplePage.clear_calendar SamplePage.render_calendar
            SamplePage.navigateToSection (SamplePage.loaded "" Sample.acme)))
    calendarContainer
  = true.
Proof.
  destruct (page_generateCalendar_failure unit unit
              (Sample.answering Sample.bad_gateway)
              Sample.stringify SamplePage.clear_calendar SamplePage.render_calendar
              SamplePage.navigateToSection (SamplePage.loaded "" Sample.acme)
              "Unexpected token < in JSON" eq_refl) as (_ & _ & H & _).
  - right. left. exists Sample.bad_gateway. eexists. repeat split.
  - exact H.
Defined.

Example click_on_blank_field :
  Api.sent
    (net _ _
       (snd (MainJs.onAnalyzeUrlClick unit unit (Sample.answering Sample.analysis_ok)
               SamplePage.json_text SamplePage.trim SamplePage.render_profile
               SamplePage.navigateToSection (SamplePage.loaded "   " JNull))))
  = [].
Proof. reflexivity. Qed.

Lemma page_click_sends_trimmed_url_witness :
  map Api.req_body
    (Api.sent
       (net _ _
          (snd (MainJs.onAnalyzeUrlClick unit unit
                  (Sample.answering Sample.analysis_ok)
                  SamplePage.json_text SamplePage.trim SamplePage.render_profile
                  SamplePage.navigateToSection
                  (SamplePage.loaded "  https://acme.example " JNull)))))
  = ["{" ++ SamplePage.quote ++ "source" ++ SamplePage.quote ++ ":"
         ++ SamplePage.quote ++ "url" ++ SamplePage.quote ++ ","
         ++ SamplePage.quote ++ "url" ++ SamplePage.quote ++ ":"
         ++ SamplePage.quote ++ "https://acme.example" ++ SamplePage.quote ++ "}"].
Proof.
  destruct (page_click_sends_trimmed_url unit unit
              (Sample.answering Sample.analysis_ok)
              SamplePage.json_text SamplePage.trim SamplePage.render_profile
              SamplePage.navigateToSection
              (SamplePage.loaded "  https://acme.example " JNull))
    as (_ & _ & _ & _ & _ & H).
  rewrite H by discriminate. reflexivity.
Defined.

End MainJsFacts.

(** ** components/AnalysisLoader.jsx *)

Module AnalysisLoaderFacts.

Import AnalysisLoader.
Import AnalysisLoaderSpec.
Import ApiFacts.

Section WithNetwork.

Variable World : Type.
Variable fetch : Api.Request -> World -> Outcome Api.Response * World.
Variable JSON_stringify : JsVal -> string.

Abbreviation startAnalysis := (AnalysisLoader.startAnalysis World fetch JSON_stringify).
Abbreviation analyzeBrand := (BrandContext.analyzeBrand World fetch JSON_stringify).

Lemma startAnalysis_run (m : Mounted World) :
  startAnalysis m =
  (Return tt,
   if analysisStarted (loader m) then m
   else
     let url := BrandContext.url (BrandContext.st (provider m)) in
     if truthy url then
       match analyzeBrand url (provider m) with
       | (Return _, c') => mkMounted (started (loader m) false (apiError (loader m))) c'
       | (Throw err, c') =>
           mkMounted (started (loader m) false
                        (JStr (err_message err) ||| JStr "Failed to analyze brand"))
                     c'
       end
     else
       mkMounted {| analysisStarted := true; isAnalyzing := isAnalyzing (loader m);
                    apiError := apiError (loader m);
                    navigated := (navigated (loader m) ++ ["/brand-intake"])%list |}
                 (provider m)).
Proof.
  unfold AnalysisLoader.startAnalysis, BrandContextRest.current, markStarted,
    setIsAnalyzing, setApiError, navigate, on_loader, in_provider, started.
  run_eff.
  destruct (analysisStarted (loader m)); [ destruct m; reflexivity |].
  cbn [loader provider].
  destruct (truthy (BrandContext.url (BrandContext.st (provider m)))); cbn [negb].
  - run_eff. cbn [loader provider].
    destruct (analyzeBrand (BrandContext.url (BrandContext.st (provider m)))
                (provider m)) as [[d|err] c']; reflexivity.
  - reflexivity.
Qed.

(** X24.  The effect starts the analysis once: run again (as React does when
    it re-runs effects), it changes nothing and sends nothing; over both
    runs at most one request leaves the component. *)
Theorem startAnalysis_runs_once (m : Mounted World) :
  let m1 := snd (startAnalysis m) in
  startAnalysis m1 = (Return tt, m1) /\
  exists rqs : list Api.Request,
    (List.length rqs <= 1)%nat /\
    Api.sent (BrandContext.net (provider (snd (startAnalysis m1))))
    = (Api.sent (BrandContext.net (provider m)) ++ rqs)%list.
Proof.
  cbv zeta.
  assert (Hstarted : analysisStarted (loader m) = false ->
                     analysisStarted (loader (snd (startAnalysis m))) = true).
  { intro Hs. rewrite startAnalysis_run, Hs. cbn [snd].
    destruct (truthy _); [| reflexivity ].
    destruct (analyzeBrand _ _) as [[d|err] c']; reflexivity. }
  assert (Hagain : startAnalysis (snd (startAnalysis m))
                   = (Return tt, snd (startAnalysis m))).
  { rewrite (startAnalysis_run (snd (startAnalysis m))).
    destruct (analysisStarted (loader m)) eqn:Hs.
    - rewrite startAnalysis_run, Hs. cbn [snd]. now rewrite Hs.
    - now rewrite (Hstarted eq_refl). }
  split; [ exact Hagain |].
  rewrite Hagain. cbn [snd]. rewrite startAnalysis_run. cbn [snd].
  destruct (analysisStarted (loader m)).
  - exists []. split; [ cbn; lia | now rewrite app_nil_r ].
  - cbv zeta. destruct (truthy (BrandContext.url (BrandContext.st (provider m)))).
    + rewrite (BrandContextFacts.analyzeBrand_run World fetch JSON_stringify).
      unfold BrandContext.analyzeBrandAPI.
      pose proof (analyzeBrand_net World fetch JSON_stringify
                    (BrandContext.url (BrandContext.st (provider m)))
                    (BrandContext.net (provider m))) as Hnet.
      destruct (Api.analyzeBrand World fetch JSON_stringify _ _) as [[d|err] n'];
        cbn [snd] in Hnet; subst n'; cbn [provider BrandContext.net Api.sent];
        eexists [_]; (split; [ cbn; lia | reflexivity ]).
    + exists []. cbn [provider]. split; [ cbn; lia | now rewrite app_nil_r ].
Qed.

(** X25.  Without a URL in the provider the effect asks the server nothing and
    sends the visitor back to the intake page. *)
Theorem startAnalysis_without_url (m : Mounted World) :
  analysisStarted (loader m) = false ->
  truthy (BrandContext.url (BrandContext.st (provider m))) = false ->
  let m' := snd (startAnalysis m) in
  provider m' = provider m /\
  navigated (loader m') = (navigated (loader m) ++ ["/brand-intake"])%list /\
  isAnalyzing (loader m') = isAnalyzing (loader m) /\
  apiError (loader m') = apiError (loader m).
Proof.
  intros Hs Hu. cbv zeta. rewrite startAnalysis_run, Hs. cbv zeta. rewrite Hu.
  repeat split.
Qed.

(** X26.  With a URL, the effect never rejects and ends with [isAnalyzing]
    false.  When the API call fulfils, the provider holds the brand data
    and the component shows no error; when it rejects, the component and
    the provider hold the same message, the brand data of the provider is
    as before, and the component does not navigate. *)
Theorem startAnalysis_with_url (m : Mounted World) :
  analysisStarted (loader m) = false ->
  let url := BrandContext.url (BrandContext.st (provider m)) in
  truthy url = true ->
  let m' := snd (startAnalysis m) in
  fst (startAnalysis m) = Return tt /\
  isAnalyzing (loader m') = false /\
  navigated (loader m') = navigated (loader m) /\
  match fst (BrandContext.analyzeBrandAPI World fetch JSON_stringify url
               (BrandContext.net (provider m))) with
  | Return data =>
      BrandContext.brandData (BrandContext.st (provider m')) = data /\
      BrandContext.error (BrandContext.st (provider m')) = JNull /\
      apiError (loader m') = apiError (loader m)
  | Throw err =>
      BrandContext.brandData (BrandContext.st (provider m'))
      = BrandContext.brandData (BrandContext.st (provider m)) /\
      apiError (loader m') = BrandContext.error (BrandContext.st (provider m')) /\
      apiError (loader m') =
        JStr (if err_message err =? "" then "Failed to analyze brand"
              else err_message err)
  end.
Proof.
  intros Hs url Hu. cbv zeta. rewrite startAnalysis_run, Hs. cbv zeta.
  fold url. rewrite Hu. cbn [fst snd].
  rewrite (BrandContextFacts.analyzeBrand_run World fetch JSON_stringify).
  destruct (BrandContext.analyzeBrandAPI World fetch JSON_stringify url
              (BrandContext.net (provider m))) as [[d|err] n'];
    cbn [fst snd loader provider started isAnalyzing navigated apiError
         BrandContext.st BrandContext.brandData BrandContext.error];
    rewrite <- ?(BrandContextFacts.kept_message); repeat split.
Qed.

End WithNetwork.

Lemma startAnalysis_without_url_witness :
  navigated
    (loader (snd (AnalysisLoader.startAnalysis unit
                    (Sample.answering Sample.analysis_ok) Sample.stringify
                    (mkMounted mounted (SamplePage.with_url "")))))
  = ["/brand-intake"].
Proof.
  destruct (startAnalysis_without_url unit (Sample.answering Sample.analysis_ok)
              Sample.stringify (mkMounted mounted (SamplePage.with_url ""))
              eq_refl eq_refl) as (_ & H & _).
  exact H.
Defined.

Lemma startAnalysis_with_url_witness :
  isAnalyzing
    (loader (snd (AnalysisLoader.startAnalysis unit
                    (Sample.answering Sample.bad_gateway) Sample.stringify
                    (mkMounted mounted (SamplePage.with_url "https://acme.example")))))
  = false.
Proof.
  destruct (startAnalysis_with_url unit (Sample.answering Sample.bad_gateway)
              Sample.stringify
              (mkMounted mounted (SamplePage.with_url "https://acme.example"))
              eq_refl eq_refl) as (_ & H & _).
  exact H.
Defined.

End AnalysisLoaderFacts.

(** ** components/AnalysisLoader.jsx, the earlier version: the fallback
       card *)

Module AnalysisLoaderLegacyFacts.

Import AnalysisLoaderLegacy.
Import AnalysisLoaderSpec.

Example name_of_url_examples :
  let name := name_of_url SamplePage.toUpperCase in
  name "https://www.acme.com" = "ACME" /\
  name "http://shop.acme.co.uk/path" = "SHOP" /\
  name "acme.io" = "ACME" /\
  name "https://awww.site.com" = "ASITE" /\
  name "HTTPS://Acme.com" = "HTTPS://ACME".
Proof. repeat split. Qed.

Lemma before_dot_free (s : string) : dot_free (before_dot s) = true.
Proof.
  induction s as [|c s IH]; cbn; [ reflexivity |].
  destruct (c =? ".")%char eqn:E; cbn; [ reflexivity |]. now rewrite E, IH.
Qed.

Lemma before_dot_app (name rest : string) :
  dot_free name = true -> before_dot (name ++ String "." rest) = name.
Proof.
  induction name as [|c name IH]; cbn; [ reflexivity |].
  intro H. apply andb_true_iff in H. destruct H as [Hc Hn].
  apply negb_true_iff in Hc. now rewrite Hc, (IH Hn).
Qed.

Section WithStrings.

Variable String_toUpperCase : string -> string.

Abbreviation name_of_url := (AnalysisLoaderLegacy.name_of_url String_toUpperCase).
Abbreviation fallbackName := (AnalysisLoaderLegacy.fallbackName String_toUpperCase).
Abbreviation exitData := (AnalysisLoaderLegacy.exitData String_toUpperCase).

(** X27.  The name made from a URL is the upper case, as
    [toUpperCase] gives it, of a label without a dot; for a URL of the
    form [http(s)://www.NAME.rest], NAME without a dot, that label is
    NAME. *)
Theorem name_of_url_spec (url : string) :
  (exists label : string,
      dot_free label = true /\ name_of_url url = String_toUpperCase label) /\
  forall name rest : string,
    dot_free name = true ->
    (url = "https://www." ++ name ++ "." ++ rest \/
     url = "http://www." ++ name ++ "." ++ rest) ->
    name_of_url url = String_toUpperCase name.
Proof.
  unfold AnalysisLoaderLegacy.name_of_url. split.
  - eexists. split; [ apply before_dot_free | reflexivity ].
  - assert (Hp : forall s, prefix "" s = true) by (intros []; reflexivity).
    intros name rest Hn [-> | ->]; cbn;
      now rewrite Hp, (before_dot_app name rest Hn).
Qed.



End WithStrings.

Lemma name_of_url_spec_witness :
  AnalysisLoaderLegacy.name_of_url SamplePage.toUpperCase "https://www.acme.com"
  = "ACME".
Proof.
  destruct (name_of_url_spec SamplePage.toUpperCase "https://www.acme.com")
    as (_ & H).
  rewrite (H "acme" "com"); [ reflexivity | reflexivity | left; reflexivity ].
Defined.



End AnalysisLoaderLegacyFacts.
